(** * Browser-driven end-to-end scripts of the job portal: a shallow embedding

    The repository holds eight generated Playwright scripts
    ([testsprite_tests/TC*.py]).  Each is one coroutine [run_test] made of a
    [try] block (session set-up, first navigation, frame settling, a
    straight line of interaction steps, assertions) and a [finally] block
    (tear-down), run by [asyncio.run].

    The browser is outside the program.  It is modelled by an [oracle] that
    answers every call from the history of the calls made so far; a script
    is a computation in a state-and-exception monad whose state carries the
    history and the three local variables the [finally] block reads.

    Conventions taken from Python and Playwright:
    - [assert] statements are executed (the interpreter is not run with -O);
    - [async_api.TimeoutError] is a subclass of [async_api.Error];
    - an exception raised inside [finally] replaces the pending one;
    - building a locator ([locator], [nth]) is local and lazy: it issues no
      browser call and cannot fail;
    - every awaited call either returns or raises (no call hangs for ever). *)

From Stdlib Require Import List String Ascii ZArith Bool Lia PeanoNat DecimalString.
Import ListNotations.
Open Scope string_scope.
Open Scope list_scope.
Open Scope Z_scope.

Set Implicit Arguments.

(** ** Values handed around by the scripts *)

Definition page := nat.      (* a Page object, named by the oracle *)
Definition frame := nat.     (* a Frame object of [page.frames] *)

(** The objects bound to [pw], [browser] and [context]. *)
Inductive handle : Type :=
| PlaywrightObj
| BrowserObj
| ContextObj.

(** [frame.locator(sel)], [loc.locator(sel)] and [loc.nth(i)]. *)
Inductive locator : Type :=
| Loc (root : page) (selector : string)
| Sub (parent : locator) (selector : string)
| Nth (parent : locator) (index : Z).

Inductive load_state : Type :=
| Commit
| DomContentLoaded.

(** ** Exceptions *)

Inductive exn : Type :=
| PlaywrightError                       (* async_api.Error *)
| PlaywrightTimeout                     (* async_api.TimeoutError *)
| NameError (name : string)
| AttributeError (attr : string)
| AssertionError (msg : option string)
| IndexError
| TypeError
| OtherException (tag : nat).           (* anything else, e.g. CancelledError *)

(** [except async_api.Error] catches the class and its subclass. *)
Definition is_playwright_error (e : exn) : bool :=
  match e with
  | PlaywrightError | PlaywrightTimeout => true
  | _ => false
  end.

(** ** Calls that reach the browser (and reads of its mirrored state) *)

Inductive call : Type :=
| PwStart                                                   (* async_playwright().start() *)
| Launch (headless : bool) (args : list string)             (* pw.chromium.launch *)
| NewContext                                                (* browser.new_context() *)
| SetDefaultTimeout (ms : Z)                                (* context.set_default_timeout *)
| NewPage                                                   (* context.new_page() *)
| Goto (p : page) (url : string) (wait_until : option load_state) (timeout : Z)
| WaitForLoadState (p : page) (s : load_state) (timeout : Z)
| GetFrames (p : page)                                      (* page.frames *)
| FrameWaitForLoadState (f : frame) (s : load_state) (timeout : Z)
| GetPages                                                  (* context.pages *)
| WaitForTimeout (p : page) (ms : Z)
| Click (l : locator) (timeout : option Z)
| Fill (l : locator) (value : string)
| MouseWheel (p : page) (dx dy : Z)
| GetUrl (p : page)                                         (* frame.url *)
| IsVisible (l : locator)
| Count (l : locator)
| WaitForVisible (l : locator) (timeout : Z)                (* wait_for(state='visible') *)
| TextContent (l : locator)
| Title (p : page)
| Sleep (seconds : Z)                                       (* asyncio.sleep *)
| ContextClose
| BrowserClose
| PwStop.

(** ** The browser as an oracle over the call history *)

Record oracle : Type := {
  raises     : list call -> call -> option exn;
  new_page_of : list call -> page;
  pages_of   : list call -> list page;
  frames_of  : list call -> page -> list frame;
  url_of     : list call -> page -> string;
  visible_of : list call -> locator -> bool;
  count_of   : list call -> locator -> Z;
  text_of    : list call -> locator -> option string;
  title_of   : list call -> page -> string
}.

(** ** Program state and the monad *)

Record state : Type := {
  trace   : list call;
  pw      : option handle;
  browser : option handle;
  context : option handle
}.

Definition initial : state :=
  {| trace := []; pw := None; browser := None; context := None |}.

Inductive result (A : Type) : Type :=
| Ok (a : A)
| Raise (e : exn).
Arguments Ok {A} a.
Arguments Raise {A} e.

Definition M (A : Type) : Type := oracle -> state -> state * result A.

Definition ret {A} (a : A) : M A := fun _ st => (st, Ok a).

Definition raise {A} (e : exn) : M A := fun _ st => (st, Raise e).

Definition bind {A B} (m : M A) (k : A -> M B) : M B :=
  fun o st =>
    match m o st with
    | (st', Ok a) => k a o st'
    | (st', Raise e) => (st', Raise e)
    end.

Declare Scope py_scope.
Delimit Scope py_scope with py.
Notation "x <- m ;; k" := (bind m (fun x => k))
  (at level 61, m at next level, right associativity) : py_scope.
Notation "m ;; k" := (bind m (fun _ => k))
  (at level 61, right associativity) : py_scope.
Open Scope py_scope.

Definition log (c : call) (st : state) : state :=
  {| trace := trace st ++ [c]; pw := pw st; browser := browser st;
     context := context st |}.

(** An awaited call returning nothing: recorded, then the oracle decides. *)
Definition perform (c : call) : M unit :=
  fun o st =>
    match raises o (trace st) c with
    | Some e => (log c st, Raise e)
    | None => (log c st, Ok tt)
    end.

(** An awaited call with a result read from the oracle. *)
Definition query {A} (c : call) (answer : oracle -> list call -> A) : M A :=
  fun o st =>
    match raises o (trace st) c with
    | Some e => (log c st, Raise e)
    | None => (log c st, Ok (answer o (trace st)))
    end.

(** A property read: recorded, never raising. *)
Definition read {A} (c : call) (answer : oracle -> list call -> A) : M A :=
  fun o st => (log c st, Ok (answer o (trace st))).

Definition set_pw (h : option handle) : M unit :=
  fun _ st => ({| trace := trace st; pw := h; browser := browser st;
                  context := context st |}, Ok tt).
Definition set_browser (h : option handle) : M unit :=
  fun _ st => ({| trace := trace st; pw := pw st; browser := h;
                  context := context st |}, Ok tt).
Definition set_context (h : option handle) : M unit :=
  fun _ st => ({| trace := trace st; pw := pw st; browser := browser st;
                  context := h |}, Ok tt).
Definition get_pw : M (option handle) := fun _ st => (st, Ok (pw st)).
Definition get_browser : M (option handle) := fun _ st => (st, Ok (browser st)).
Definition get_context : M (option handle) := fun _ st => (st, Ok (context st)).

(** Truth value of a local that is [None] or an object. *)
Definition truthy (h : option handle) : bool :=
  match h with Some _ => true | None => false end.

(** [if x: body] *)
Definition when (b : bool) (body : M unit) : M unit :=
  if b then body else ret tt.

(** [try: body / except async_api.Error: pass] *)
Definition try_except_Error (body : M unit) : M unit :=
  fun o st =>
    match body o st with
    | (st', Ok a) => (st', Ok a)
    | (st', Raise e) =>
        if is_playwright_error e then (st', Ok tt) else (st', Raise e)
    end.

(** [try: body / finally: fin] *)
Definition try_finally (body fin : M unit) : M unit :=
  fun o st =>
    match body o st with
    | (st1, r1) =>
        match fin o st1 with
        | (st2, Ok _) => (st2, r1)
        | (st2, Raise e2) => (st2, Raise e2)
        end
    end.

(** [for x in xs: body x] *)
Fixpoint for_each {A} (xs : list A) (body : A -> M unit) : M unit :=
  match xs with
  | [] => ret tt
  | x :: xs' => body x ;; for_each xs' body
  end.

(** [assert cond, msg] *)
Definition assert_ (cond : bool) (msg : option string) : M unit :=
  if cond then ret tt else raise (AssertionError msg).

(** [xs[-1]] *)
Definition last_item (xs : list page) : M page :=
  match rev xs with
  | [] => raise IndexError
  | p :: _ => ret p
  end.

(** ** The calls the scripts make *)

Definition chromium_args : list string :=
  [ "--window-size=1280,720"; "--disable-dev-shm-usage"; "--ipc=host";
    "--single-process" ].

(** [pw = await async_api.async_playwright().start()] *)
Definition start_playwright : M unit :=
  perform PwStart ;; set_pw (Some PlaywrightObj).

(** [browser = await pw.chromium.launch(headless=True, args=[...])] *)
Definition launch_browser : M unit :=
  perform (Launch true chromium_args) ;; set_browser (Some BrowserObj).

(** [context = await browser.new_context()] *)
Definition new_context : M unit :=
  perform NewContext ;; set_context (Some ContextObj).

Definition set_default_timeout (ms : Z) : M unit :=
  perform (SetDefaultTimeout ms).

Definition new_page : M page := query NewPage new_page_of.

Definition goto (p : page) (url : string) (wait_until : option load_state)
    (timeout : Z) : M unit :=
  perform (Goto p url wait_until timeout).

Definition wait_for_load_state (p : page) (s : load_state) (timeout : Z)
    : M unit :=
  perform (WaitForLoadState p s timeout).

Definition page_frames (p : page) : M (list frame) :=
  read (GetFrames p) (fun o h => frames_of o h p).

Definition frame_wait_for_load_state (f : frame) (s : load_state)
    (timeout : Z) : M unit :=
  perform (FrameWaitForLoadState f s timeout).

Definition context_pages : M (list page) := read GetPages pages_of.

Definition wait_for_timeout (p : page) (ms : Z) : M unit :=
  perform (WaitForTimeout p ms).

Definition click (l : locator) (timeout : option Z) : M unit :=
  perform (Click l timeout).

Definition fill (l : locator) (value : string) : M unit :=
  perform (Fill l value).

Definition mouse_wheel (p : page) (dx dy : Z) : M unit :=
  perform (MouseWheel p dx dy).

Definition frame_url (p : page) : M string :=
  read (GetUrl p) (fun o h => url_of o h p).

Definition is_visible (l : locator) : M bool :=
  query (IsVisible l) (fun o h => visible_of o h l).

Definition count (l : locator) : M Z :=
  query (Count l) (fun o h => count_of o h l).

Definition wait_for_visible (l : locator) (timeout : Z) : M unit :=
  perform (WaitForVisible l timeout).

Definition text_content (l : locator) : M (option string) :=
  query (TextContent l) (fun o h => text_of o h l).

Definition page_title (p : page) : M string :=
  query (Title p) (fun o h => title_of o h p).

Definition sleep (seconds : Z) : M unit := perform (Sleep seconds).

(** ** The part every script shares *)

(** Lines 31-38: first navigation, then the optional wait for the document. *)
Definition open_start_page (p : page) : M unit :=
  goto p "http://localhost:3000" (Some Commit) 10000 ;;
  try_except_Error (wait_for_load_state p DomContentLoaded 3000).

(** Lines 40-45: one pass over the frames attached when the loop starts. *)
Definition settle_frames (p : page) : M unit :=
  frames <- page_frames p ;;
  for_each frames
    (fun f => try_except_Error (frame_wait_for_load_state f DomContentLoaded 3000)).

(** Lines 10-45 of every script; yields the local [page]. *)
Definition setup : M page :=
  start_playwright ;;
  launch_browser ;;
  new_context ;;
  set_default_timeout 5000 ;;
  p <- new_page ;;
  open_start_page p ;;
  settle_frames p ;;
  ret p.

(** The [finally] block of every script. *)
Definition teardown : M unit :=
  c <- get_context ;;
  when (truthy c) (perform ContextClose) ;;
  b <- get_browser ;;
  when (truthy b) (perform BrowserClose) ;;
  w <- get_pw ;;
  when (truthy w) (perform PwStop).

(** [run_test] with the given [try] body; [asyncio.run] hands its outcome on. *)
Definition run_test (body : M unit) : M unit := try_finally body teardown.

(** [frame.locator(path).nth(i)]: the locator is built on the client; the
    document is not consulted. *)
Definition locate (fr : page) (path : string) (i : Z) : M locator :=
  ret (Nth (Loc fr path) i).

(** [frame = context.pages[-1]; elem = frame.locator(path).nth(0)] *)
Definition resolve (path : string) : M (page * locator) :=
  pages <- context_pages ;;
  fr <- last_item pages ;;
  elem <- locate fr path 0 ;;
  ret (fr, elem).

(** A generated click step; the value is what [frame] holds afterwards. *)
Definition click_step (p : page) (path : string) : M page :=
  r <- resolve path ;;
  wait_for_timeout p 3000 ;;
  click (snd r) (Some 5000) ;;
  ret (fst r).

(** A generated fill step. *)
Definition fill_step (p : page) (path value : string) : M page :=
  r <- resolve path ;;
  wait_for_timeout p 3000 ;;
  fill (snd r) value ;;
  ret (fst r).

(** Names bound where the scroll statement is evaluated: the locals of
    [run_test] and the module globals.  The builtins hold no [window]. *)
Definition names_in_scope : list string :=
  [ "pw"; "browser"; "context"; "page"; "frame"; "elem";
    "asyncio"; "async_api"; "run_test" ].

Definition name_bound (x : string) : bool :=
  existsb (String.eqb x) names_in_scope.

(** Evaluation of [window.innerHeight]: the name is looked up first; none of
    the objects in scope has such an attribute. *)
Definition window_innerHeight : M Z :=
  if name_bound "window" then raise (AttributeError "innerHeight")
  else raise (NameError "window").

(** [await page.mouse.wheel(0, window.innerHeight)]: the argument is
    evaluated before the call is made. *)
Definition scroll_step (p : page) : M unit :=
  dy <- window_innerHeight ;;
  mouse_wheel p 0 dy.

Definition generic_failure : option string :=
  Some "Test plan execution failed: generic failure assertion.".

(** [needle in hay] on strings. *)
Fixpoint contains (needle hay : string) : bool :=
  if String.prefix needle hay then true
  else match hay with
       | EmptyString => false
       | String _ rest => contains needle rest
       end.

(** A run of [assert] statements, each with the awaited expression it tests:
    [assert await e1, m1; assert await e2, m2; ...] *)
Fixpoint checkpoint (asserts : list (M bool * option string)) : M unit :=
  match asserts with
  | [] => ret tt
  | (e, msg) :: rest => b <- e ;; assert_ b msg ;; checkpoint rest
  end.

(** [await loc.count() > 0] *)
Definition count_positive (l : locator) : M bool :=
  n <- count l ;; ret (n >? 0).

(** ** TC001_EmailPassword_Authentication_Success.py *)

Definition TC001_before (p : page) : M page :=
  click_step p "xpath=html/body/div/header/div/div[2]/div/a[2]" ;;                      (* 49 *)
  fill_step p "xpath=html/body/div/main/div/div/div[2]/form/div/input" "Test Candidate" ;;   (* 55 *)
  fill_step p "xpath=html/body/div/main/div/div/div[2]/form/div[2]/input" "candidate@example.com" ;;
  fill_step p "xpath=html/body/div/main/div/div/div[2]/form/div[3]/input" "Password123!" ;;
  click_step p "xpath=html/body/div/main/div/div/div[2]/form/div[4]/button".            (* 70 *)

Definition TC001_after (p : page) : M unit :=
  click_step p "xpath=html/body/div[2]/div/div/div[2]" ;;                               (* 80 *)
  click_step p "xpath=html/body/div/main/div/div/div[2]/form/div[4]/button" ;;          (* 86 *)
  click_step p "xpath=html/body/div[2]/div/div/div" ;;                                  (* 92 *)
  click_step p "xpath=html/body/div/main/div/div/div[2]/form/button" ;;                 (* 98 *)
  assert_ false generic_failure ;;                                                      (* 103 *)
  sleep 5.

Definition TC001_body : M unit :=
  p <- setup ;;
  TC001_before p ;;
  scroll_step p ;;                                                                      (* 76 *)
  TC001_after p.

(** ** TC002_Recruiter_Login_and_Access_Control.py *)

Definition TC002_steps (p : page) : M page :=
  click_step p "xpath=html/body/div/header/div/div[2]/div/a" ;;                         (* 49 *)
  fill_step p "xpath=html/body/div/main/div/div/div[2]/form/div/input" "recruiter@example.com" ;;
  fill_step p "xpath=html/body/div/main/div/div/div[2]/form/div[2]/input" "ValidPassword123" ;;
  click_step p "xpath=html/body/div/main/div/div/div[2]/form/button" ;;                 (* 65 *)
  click_step p "xpath=html/body/div/main/div/div/div[2]/form[2]/button".                (* 71 *)

(** Line 77: [x in frame.url or await ....is_visible()]; [or] evaluates its
    right operand only when the left one is false. *)
Definition dashboard_loaded (fr : page) : M bool :=
  u <- frame_url fr ;;
  if contains "/recruiter/dashboard" u then ret true
  else is_visible (Loc fr "text=Recruiter Dashboard").

(** Lines 77-86, on the [frame] left by the last step. *)
Definition TC002_asserts (fr : page) : list (M bool * option string) :=
  [ (dashboard_loaded fr, Some "Recruiter dashboard not loaded or URL mismatch");
    (is_visible (Loc fr "text=Post a Job"), Some "Post a Job feature not accessible");
    (is_visible (Loc fr "text=Application Management"),
     Some "Application Management feature not accessible");
    (is_visible (Loc fr "text=Interviewing"), Some "Interviewing feature not accessible") ].

Definition TC002_body : M unit :=
  p <- setup ;;
  fr <- TC002_steps p ;;
  checkpoint (TC002_asserts fr) ;;
  sleep 5.

(** ** TC007_Role_Based_Dashboards_Access_and_Data_Verification.py *)

Definition TC007_steps (p : page) : M unit :=
  click_step p "xpath=html/body/div/header/div/div[2]/div/a" ;;                         (* 49 *)
  fill_step p "xpath=html/body/div/main/div/div/div[2]/form/div/input" "candidate@example.com" ;;
  fill_step p "xpath=html/body/div/main/div/div/div[2]/form/div[2]/input" "CandidatePass123" ;;
  click_step p "xpath=html/body/div/main/div/div/div[2]/form/button" ;;                 (* 65 *)
  click_step p "xpath=html/body/div/header/div/div[2]/div/a" ;;                         (* 71 *)
  fill_step p "xpath=html/body/div/main/div/div/div[2]/form/div/input" "recruiter@example.com" ;;
  fill_step p "xpath=html/body/div/main/div/div/div[2]/form/div[2]/input" "RecruiterPass123" ;;
  click_step p "xpath=html/body/div/main/div/div/div[2]/form/button" ;;                 (* 87 *)
  click_step p "xpath=html/body/div/header/div/div[2]/div/a" ;;                         (* 93 *)
  fill_step p "xpath=html/body/div/main/div/div/div[2]/form/div/input" "admin@example.com" ;;
  fill_step p "xpath=html/body/div/main/div/div/div[2]/form/div[2]/input" "AdminPass123" ;;
  click_step p "xpath=html/body/div/main/div/div/div[2]/form/button" ;;                 (* 109 *)
  ret tt.

(** Lines 117-131: nine assertions without a message. *)
Definition TC007_asserts (fr : page) : list (M bool * option string) :=
  map (fun sel => (count_positive (Loc fr sel), None))
    [ "text=Applications"; "text=Interviews"; "text=Resume Status";
      "text=Job Postings"; "text=Team Management"; "text=Applicant Tracking";
      "text=User Management"; "text=System Health"; "text=Analytics" ].

Definition TC007_body : M unit :=
  p <- setup ;;
  TC007_steps p ;;
  pages <- context_pages ;;                                                             (* 115 *)
  fr <- last_item pages ;;
  checkpoint (TC007_asserts fr) ;;
  sleep 5.

(** ** TC011_Candidate_Application_and_Status_Tracking.py *)

Definition TC011_steps (p : page) : M unit :=
  click_step p "xpath=html/body/div/header/div/div/nav/a[2]" ;;                         (* 49 *)
  click_step p "xpath=html/body/div/header/div/div[2]/div/a" ;;                         (* 55 *)
  fill_step p "xpath=html/body/div/main/div/div/div[2]/form/div/input" "candidate@example.com" ;;
  fill_step p "xpath=html/body/div/main/div/div/div[2]/form/div[2]/input" "CandidatePass123" ;;
  click_step p "xpath=html/body/div/main/div/div/div[2]/form/button" ;;                 (* 71 *)
  fill_step p "xpath=html/body/div/main/div/section/div/div/div/form/div/div/input" "Software Engineer" ;;
  fill_step p "xpath=html/body/div/main/div/section/div/div/div/form/div/div[2]/input" "New York" ;;
  click_step p "xpath=html/body/div/main/div/section/div/div/div/form/div[2]/button" ;; (* 87 *)
  goto p "http://localhost:3000/jobs" None 10000 ;;                                     (* 93 *)
  fill_step p "xpath=html/body/div/main/div/div/div/div/form/div/div/input" "Software Engineer" ;;
  fill_step p "xpath=html/body/div/main/div/div/div/div/form/div/div[2]/input" "New York" ;;
  click_step p "xpath=html/body/div/main/div/div/div/div/form/div[2]/button" ;;         (* 107 *)
  assert_ false generic_failure ;;                                                      (* 112 *)
  sleep 5.

Definition TC011_body : M unit := p <- setup ;; TC011_steps p.

(** ** TC013_Role_Based_Dashboard_Data_Accuracy_and_Real_Time_Updates.py *)

Definition dq : string := String "034"%char EmptyString.   (* the double quote *)

Definition TC013R_steps (p : page) : M page :=
  click_step p "xpath=html/body/div/header/div/div[2]/div/a" ;;                         (* 49 *)
  fill_step p "xpath=html/body/div/main/div/div/div[2]/form/div/input" "candidate@example.com" ;;
  fill_step p "xpath=html/body/div/main/div/div/div[2]/form/div[2]/input" "CandidatePass123" ;;
  click_step p "xpath=html/body/div/main/div/div/div[2]/form/button" ;;                 (* 65 *)
  click_step p "xpath=html/body/div/header/div/div[2]/div/a" ;;                         (* 71 *)
  fill_step p "xpath=html/body/div/main/div/div/div[2]/form/div/input" "recruiter@example.com" ;;
  fill_step p "xpath=html/body/div/main/div/div/div[2]/form/div[2]/input" "RecruiterPass123" ;;
  click_step p "xpath=html/body/div/main/div/div/div[2]/form/button" ;;                 (* 87 *)
  click_step p "xpath=html/body/div/header/div/div[2]/div/a" ;;                         (* 93 *)
  fill_step p "xpath=html/body/div/main/div/div/div[2]/form/div/input" "admin@example.com" ;;
  fill_step p "xpath=html/body/div/main/div/div/div[2]/form/div[2]/input" "AdminPass123" ;;
  click_step p "xpath=html/body/div/main/div/div/div[2]/form/button".                   (* 109 *)

(** [frame.locator('xpath=//div[@id="<id>"]')] *)
Definition dashboard (fr : page) (id : string) : locator :=
  Loc fr ("xpath=//div[@id=" ++ dq ++ id ++ dq ++ "]").

(** The three assertions made on one dashboard. *)
Definition dashboard_asserts (d : locator) (a b c : string)
    : list (M bool * option string) :=
  [ (count_positive (Sub d a), None);
    (count_positive (Sub d b), None);
    (count_positive (Sub d c), None) ].

(** Lines 115-138, on the [frame] left by the step of line 109. *)
Definition TC013R_checks (p fr : page) : M unit :=
  let candidate_dashboard := dashboard fr "candidate-dashboard" in                      (* 115 *)
  wait_for_visible candidate_dashboard 5000 ;;
  checkpoint (dashboard_asserts candidate_dashboard
                "text=Applications" "text=Match Scores" "text=Career Insights") ;;
  let logout_button := Loc fr ("xpath=//button[text()=" ++ dq ++ "Logout" ++ dq ++ "]") in
  click logout_button None ;;                                                           (* 122 *)
  wait_for_timeout p 3000 ;;
  let recruiter_dashboard := dashboard fr "recruiter-dashboard" in                      (* 125 *)
  wait_for_visible recruiter_dashboard 5000 ;;
  checkpoint (dashboard_asserts recruiter_dashboard
                "text=Job Posts" "text=Application Pipeline" "text=Hiring Credits") ;;
  click logout_button None ;;                                                           (* 131 *)
  wait_for_timeout p 3000 ;;
  let admin_dashboard := dashboard fr "admin-dashboard" in                              (* 134 *)
  wait_for_visible admin_dashboard 5000 ;;
  checkpoint (dashboard_asserts admin_dashboard
                "text=System Analytics" "text=Feature Flags" "text=User Overview").

Definition TC013R_body : M unit :=
  p <- setup ;;
  fr <- TC013R_steps p ;;
  TC013R_checks p fr ;;
  sleep 5.

(** ** TC013_System_Build_and_Deployment_Verifications.py *)

Definition TC013S_before (p : page) : M page :=
  goto p "http://localhost:3000/build" None 10000 ;;                                    (* 49 *)
  click_step p "xpath=html/body/div/header/div/div/a".                                  (* 53 *)

Definition TC013S_after (p : page) : M unit :=
  scroll_step p ;;                                                                      (* 63 *)
  click_step p "xpath=html/body/div/header/div/div[2]/div/a" ;;                         (* 67 *)
  fill_step p "xpath=html/body/div/main/div/div/div[2]/form/div/input" "admin@example.com" ;;
  fill_step p "xpath=html/body/div/main/div/div/div[2]/form/div[2]/input" "AdminPass123" ;;
  click_step p "xpath=html/body/div/main/div/div/div[2]/form/button" ;;                 (* 83 *)
  goto p "http://localhost:3000" None 10000.                                            (* 89 *)

Definition TC013S_checks (p : page) : M unit :=
  build_status <- count (Loc p "text=error") ;;                                         (* 93 *)
  assert_ (build_status =? 0) (Some "Critical errors found during build process.") ;;
  goto p "http://localhost:3000/test-results" None 10000 ;;                             (* 96 *)
  test_failures <- count (Loc p "text=fail") ;;
  assert_ (test_failures =? 0) (Some "Some tests have failed in the test suite.") ;;
  goto p "http://localhost:3000" None 10000 ;;                                          (* 100 *)
  title <- page_title p ;;
  assert_ (contains "JobPortal Pro" title)
    (Some "Deployed application main page title is incorrect or missing.") ;;
  runtime_errors <- count (Loc p "text=runtime error") ;;
  assert_ (runtime_errors =? 0) (Some "Runtime errors found in deployed application.").

Definition TC013S_body : M unit :=
  p <- setup ;;
  TC013S_before p ;;
  scroll_step p ;;                                                                      (* 59 *)
  TC013S_after p ;;
  TC013S_checks p ;;
  sleep 5.

(** ** TC015_Interview_Management_with_Scheduling_and_Reminder_Notifications.py *)

Definition TC015_steps (p : page) : M unit :=
  click_step p "xpath=html/body/div/header/div/div[2]/div/a" ;;                         (* 49 *)
  fill_step p "xpath=html/body/div/main/div/div/div[2]/form/div/input" "recruiter@example.com" ;;
  fill_step p "xpath=html/body/div/main/div/div/div[2]/form/div[2]/input" "SecurePass123" ;;
  click_step p "xpath=html/body/div/main/div/div/div[2]/form/button" ;;                 (* 65 *)
  click_step p "xpath=html/body/div/header/div/div[2]/div/a" ;;                         (* 71 *)
  fill_step p "xpath=html/body/div/main/div/div/div[2]/form/div/input" "recruiter@example.com" ;;
  fill_step p "xpath=html/body/div/main/div/div/div[2]/form/div[2]/input" "SecurePass123" ;;
  click_step p "xpath=html/body/div/main/div/div/div[2]/form/button" ;;                 (* 87 *)
  click_step p "xpath=html/body/div/header/div/div[2]/div/a" ;;                         (* 93 *)
  fill_step p "xpath=html/body/div/main/div/div/div[2]/form/div/input" "recruiter@example.com" ;;
  click_step p "xpath=html/body/div/main/div/div/div[2]/form[2]/button" ;;              (* 104 *)
  goto p "http://localhost:3000/recruiter/dashboard" None 10000 ;;                      (* 110 *)
  goto p "http://localhost:3000" None 10000 ;;                                          (* 114 *)
  click_step p "xpath=html/body/div/main/div/section[5]/div/div/a[2]" ;;                (* 118 *)
  click_step p "xpath=html/body/div/main/div/div/div[2]/div[2]/a" ;;                    (* 124 *)
  fill_step p "xpath=html/body/div/main/div/div/div[2]/form/div/input" "recruiter@example.com" ;;
  fill_step p "xpath=html/body/div/main/div/div/div[2]/form/div[2]/input" "SecurePass123" ;;
  click_step p "xpath=html/body/div/main/div/div/div[2]/form/button" ;;                 (* 140 *)
  click_step p "xpath=html/body/div/main/div/section[5]/div/div/a[2]" ;;                (* 146 *)
  click_step p "xpath=html/body/div/main/div/div/div[2]/div[2]/a" ;;                    (* 152 *)
  assert_ false generic_failure ;;                                                      (* 157 *)
  sleep 5.

Definition TC015_body : M unit := p <- setup ;; TC015_steps p.

(** ** TC016_Automated_Tests_Execution_and_Coverage_Verification.py *)

Definition TC016_before (p : page) : M page :=
  goto p "http://localhost:3000/test" None 10000 ;;                                     (* 49 *)
  click_step p "xpath=html/body/div/header/div/div/a".                                  (* 53 *)

Definition is_digit (c : ascii) : bool :=
  let n := nat_of_ascii c in ((48 <=? n)%nat && (n <=? 57)%nat)%bool.

Definition digit_value (c : ascii) : Z := Z.of_nat (nat_of_ascii c) - 48.

(** [re.search(r'(\d+)%', text)] on ASCII text: the value of the first run of
    digits that a percent sign follows; [run] is the run being read. *)
Fixpoint search_percent (text : string) (run : option Z) : option Z :=
  match text with
  | EmptyString => None
  | String c rest =>
      if is_digit c then
        search_percent rest
          (Some (10 * match run with Some v => v | None => 0 end + digit_value c))
      else
        match run with
        | Some v => if Ascii.eqb c "%"%char then Some v else search_percent rest None
        | None => search_percent rest None
        end
  end.

(** Lines 76-79; [re.search] rejects [None]. *)
Definition extract_coverage_percentage (text : option string) : M Z :=
  match text with
  | None => raise TypeError
  | Some s =>
      match search_percent s None with
      | Some v => ret v
      | None => ret 0
      end
  end.

Definition str_of_Z (n : Z) : string :=
  DecimalString.NilZero.string_of_int (Z.to_int n).

Definition TC016_checks (p : page) : M unit :=
  a <- count (Loc p "text=Critical failure") ;;                                         (* 67 *)
  b <- count (Loc p "text=High severity failure") ;;
  let testFailures := a + b in
  assert_ (testFailures =? 0)
    (Some "There are critical or high severity test failures detected.") ;;
  authCoverageText <- text_content (Loc p "text=Authentication Coverage:") ;;           (* 72 *)
  jobPostingCoverageText <- text_content (Loc p "text=Job Posting Coverage:") ;;
  paymentsCoverageText <- text_content (Loc p "text=Payments Coverage:") ;;
  authCoverage <- extract_coverage_percentage authCoverageText ;;                       (* 81 *)
  jobPostingCoverage <- extract_coverage_percentage jobPostingCoverageText ;;
  paymentsCoverage <- extract_coverage_percentage paymentsCoverageText ;;
  assert_ (authCoverage >=? 80)
    (Some ("Authentication coverage below threshold: " ++ str_of_Z authCoverage ++ "%")%string) ;;
  assert_ (jobPostingCoverage >=? 80)
    (Some ("Job Posting coverage below threshold: " ++ str_of_Z jobPostingCoverage ++ "%")%string) ;;
  assert_ (paymentsCoverage >=? 80)
    (Some ("Payments coverage below threshold: " ++ str_of_Z paymentsCoverage ++ "%")%string).

Definition TC016_body : M unit :=
  p <- setup ;;
  TC016_before p ;;
  scroll_step p ;;                                                                      (* 59 *)
  scroll_step p ;;                                                                      (* 63 *)
  TC016_checks p ;;
  sleep 5.

(** ** The eight scripts *)

Definition scripts : list (string * M unit) :=
  [ ("TC001_EmailPassword_Authentication_Success", TC001_body);
    ("TC002_Recruiter_Login_and_Access_Control", TC002_body);
    ("TC007_Role_Based_Dashboards_Access_and_Data_Verification", TC007_body);
    ("TC011_Candidate_Application_and_Status_Tracking", TC011_body);
    ("TC013_Role_Based_Dashboard_Data_Accuracy_and_Real_Time_Updates", TC013R_body);
    ("TC013_System_Build_and_Deployment_Verifications", TC013S_body);
    ("TC015_Interview_Management_with_Scheduling_and_Reminder_Notifications", TC015_body);
    ("TC016_Automated_Tests_Execution_and_Coverage_Verification", TC016_body) ].

(** [asyncio.run(run_test())] from a fresh interpreter. *)
Definition run (body : M unit) (o : oracle) : state * result unit :=
  run_test body o initial.

(** ** Oracles used in examples *)

(** A browser on which every call succeeds: one page, one frame, the given
    answers to every question. *)
Definition calm (vis : bool) (n : Z) : oracle :=
  {| raises := fun _ _ => None;
     new_page_of := fun _ => 1%nat;
     pages_of := fun _ => [1%nat];
     frames_of := fun _ _ => [0%nat];
     url_of := fun _ _ => "http://localhost:3000/";
     visible_of := fun _ _ => vis;
     count_of := fun _ _ => n;
     text_of := fun _ _ => None;
     title_of := fun _ _ => "JobPortal Pro" |}.

(** The same oracle with other answers to [raises]. *)
Definition with_raises (r : list call -> call -> option exn) (o : oracle) : oracle :=
  {| raises := r;
     new_page_of := new_page_of o;
     pages_of := pages_of o;
     frames_of := frames_of o;
     url_of := url_of o;
     visible_of := visible_of o;
     count_of := count_of o;
     text_of := text_of o;
     title_of := title_of o |}.

(** * Vocabulary of the specifications *)

Definition status {A} (r : result A) : option exn :=
  match r with Ok _ => None | Raise e => Some e end.

(** ** Kinds of calls *)

Definition is_interaction (c : call) : bool :=
  match c with Click _ _ | Fill _ _ => true | _ => false end.

Definition is_teardown (c : call) : bool :=
  match c with ContextClose | BrowserClose | PwStop => true | _ => false end.

(** Property reads, and the waits whose Playwright errors are swallowed. *)
Definition quiet (c : call) : bool :=
  match c with
  | GetPages | GetFrames _ | GetUrl _
  | WaitForLoadState _ _ _ | FrameWaitForLoadState _ _ _ => true
  | _ => false
  end.

(** ** A history-aware check of every call of a trace *)

Fixpoint allh (P : list call -> call -> bool) (h l : list call) : bool :=
  match l with
  | [] => true
  | c :: r => P h c && allh P (h ++ [c]) r
  end.

(** ** Specifications of computations by the calls they add *)

Definition post : Type := list call -> list call -> option exn -> Prop.

(** [m] only appends calls to the history; the calls [l] it appends and the
    way it ends satisfy [Q]. *)
Definition runs {A} (o : oracle) (Q : post) (m : M A) : Prop :=
  forall st, exists l,
    trace (fst (m o st)) = trace st ++ l /\
    Q (trace st) l (status (snd (m o st))).

(** Postconditions that compose along [;;]. *)
Record sequential (Q : post) : Prop := {
  seq_nil : forall h s, Q h [] s;
  seq_app : forall h l1 l2 s, Q h l1 None -> Q (h ++ l1) l2 s -> Q h (l1 ++ l2) s
}.

(** Postconditions given call by call, for the calls that are [good]. *)
Record family (o : oracle) (Q : post) (good : call -> bool) : Prop := {
  fam_seq : sequential Q;
  fam_call : forall c h, good c = true -> Q h [c] (raises o h c);
  fam_quiet : forall c h, good c = true -> quiet c = true -> Q h [c] None
}.

(** Every call of the trace passes [P]. *)
Definition each (P : list call -> call -> bool) : post :=
  fun h l _ => allh P h l = true.

(** An interaction call that raises is the last call, and its exception is
    the way the computation ends. *)
Definition halting (o : oracle) : post :=
  fun h l s =>
    forall h1 c rest e,
      l = h1 ++ c :: rest -> is_interaction c = true ->
      raises o (h ++ h1) c = Some e ->
      rest = [] /\ s = Some e.

(** ** The locals read by [finally] *)

Definition locals_of (st : state) : option handle * option handle * option handle :=
  (pw st, browser st, context st).

Definition keeps_locals {A} (o : oracle) (m : M A) : Prop :=
  forall st, locals_of (fst (m o st)) = locals_of st.

(** What the three acquisitions of [setup] return under an oracle. *)
Definition launch_call : call := Launch true chromium_args.

Definition pw_acquired (o : oracle) : bool :=
  match raises o [] PwStart with None => true | Some _ => false end.

Definition browser_acquired (o : oracle) : bool :=
  pw_acquired o &&
  match raises o [PwStart] launch_call with None => true | Some _ => false end.

Definition context_acquired (o : oracle) : bool :=
  browser_acquired o &&
  match raises o [PwStart; launch_call] NewContext with
  | None => true
  | Some _ => false
  end.

(** The part of [setup] that follows the acquisitions. *)
Definition setup_rest {A} (k : page -> M A) : M A :=
  set_default_timeout 5000 ;;
  p <- new_page ;;
  open_start_page p ;;
  settle_frames p ;;
  k p.

(** The closes [finally] is due to make, from the locals it finds. *)
Definition expected_teardown (st : state) : list call :=
  (if truthy (context st) then [ContextClose] else []) ++
  (if truthy (browser st) then [BrowserClose] else []) ++
  (if truthy (pw st) then [PwStop] else []).

(** The calls of [cs] made in order from history [h], up to and including the
    first one that raises. *)
Fixpoint attempted (o : oracle) (h cs : list call) : list call :=
  match cs with
  | [] => []
  | c :: r =>
      c :: match raises o h c with
           | Some _ => []
           | None => attempted o (h ++ [c]) r
           end
  end.

(** No tear-down call raises. *)
Definition teardown_returns (o : oracle) : Prop :=
  forall h c, is_teardown c = true -> raises o h c = None.

(** The exception of the first acquisition that fails, if one does. *)
Definition acquisition_error (o : oracle) : option exn :=
  match raises o [] PwStart with
  | Some e => Some e
  | None =>
      match raises o [PwStart] launch_call with
      | Some e => Some e
      | None => raises o [PwStart; launch_call] NewContext
      end
  end.

(** How the outcome of [asyncio.run(run_test())] reads: a normal return, an
    [AssertionError] with its message, or any other exception. *)
Inductive verdict : Type :=
| Passed
| Failed (msg : option string)
| Error (e : exn).

Definition verdict_of (r : result unit) : verdict :=
  match r with
  | Ok _ => Passed
  | Raise (AssertionError msg) => Failed msg
  | Raise e => Error e
  end.

(** A call that returned, or a read or load wait (whose failure is dropped). *)
Definition returned (o : oracle) (h : list call) (c : call) : bool :=
  quiet c || match raises o h c with None => true | Some _ => false end.

(** A computation that ends well made only calls that returned. *)
Definition reported (o : oracle) : post :=
  fun h l s => s = None -> allh (returned o) h l = true.

(** A script cut where [window.innerHeight] is evaluated. *)
Definition cut_at_scroll (before : page -> M page) : M unit :=
  p <- setup ;; before p ;; raise (NameError "window").

(** Calls that only statements after a scroll step make. *)
Definition after_scroll_only (c : call) : bool :=
  match c with
  | MouseWheel _ _ _ | Count _ | TextContent _ | Title _ | Sleep _ => true
  | _ => false
  end.

(** The state after the calls [l] were recorded. *)
Definition extend (st : state) (l : list call) : state :=
  {| trace := trace st ++ l; pw := pw st; browser := browser st;
     context := context st |}.

(** The wait made for one frame in the settling loop. *)
Definition frame_wait (f : frame) : call :=
  FrameWaitForLoadState f DomContentLoaded 3000.

(** A page with three frames of which the second never settles. *)
Definition stuck_frame : oracle :=
  {| raises := fun _ c =>
       match c with
       | FrameWaitForLoadState 1%nat _ _ => Some PlaywrightTimeout
       | _ => None
       end;
     new_page_of := fun _ => 1%nat;
     pages_of := fun _ => [1%nat];
     frames_of := fun _ _ => [0%nat; 1%nat; 2%nat];
     url_of := fun _ _ => "http://localhost:3000/";
     visible_of := fun _ _ => true;
     count_of := fun _ _ => 1;
     text_of := fun _ _ => None;
     title_of := fun _ _ => "JobPortal Pro" |}.

(** Following the words of the specification (section 4.5): a checkpoint
    that evaluates every predicate, whatever the earlier ones gave, and
    collects the messages of those that are false. *)
Fixpoint collect_all (asserts : list (M bool * option string))
    : M (list (option string)) :=
  match asserts with
  | [] => ret []
  | (e, msg) :: rest =>
      b <- e ;;
      failed <- collect_all rest ;;
      ret (if b then failed else msg :: failed)
  end.

(** A browser that shows the dashboard heading and nothing else. *)
Definition heading_only : oracle :=
  {| raises := fun _ _ => None;
     new_page_of := fun _ => 1%nat;
     pages_of := fun _ => [1%nat];
     frames_of := fun _ _ => [0%nat];
     url_of := fun _ _ => "http://localhost:3000/login";
     visible_of := fun _ l =>
       match l with
       | Loc _ sel => String.eqb sel "text=Recruiter Dashboard"
       | _ => false
       end;
     count_of := fun _ _ => 0;
     text_of := fun _ _ => None;
     title_of := fun _ _ => "JobPortal Pro" |}.

(** A browser on which the first click of the run (its twelfth call) times
    out. *)
Definition first_click_times_out : oracle :=
  with_raises
    (fun h c =>
       if is_interaction c && Nat.eqb (List.length h) 11
       then Some PlaywrightTimeout else None)
    (calm true 1).

(** A machine on which Chromium cannot be launched. *)
Definition no_browser : oracle :=
  with_raises
    (fun _ c => match c with Launch _ _ => Some PlaywrightError | _ => None end)
    (calm true 1).

(** The three scripts with a scroll statement, with the steps before it. *)
Definition scroll_scripts : list ((page -> M page) * M unit) :=
  [ (TC001_before, TC001_body);
    (TC013S_before, TC013S_body);
    (TC016_before, TC016_body) ].

Definition start_url : string := "http://localhost:3000".

(** C6 as stated: every navigation waits for the commit point only, within
    10000 ms. *)
Definition commit_only (c : call) : bool :=
  match c with
  | Goto _ _ (Some Commit) t => t =? 10000
  | Goto _ _ _ _ => false
  | _ => true
  end.

(** What the scripts do: a navigation has the 10000 ms timeout and either
    goes to the start page waiting for the commit point, or names no wait
    condition at all; a wait for the document is for DOMContentLoaded within
    3000 ms and directly follows a navigation of the first kind on the same
    page. *)
Definition nav_ok (h : list call) (c : call) : bool :=
  match c with
  | Goto _ u w t =>
      (t =? 10000) &&
      match w with
      | Some Commit => String.eqb u start_url
      | Some DomContentLoaded => false
      | None => true
      end
  | WaitForLoadState p s t =>
      match s with DomContentLoaded => true | Commit => false end &&
      (t =? 3000) &&
      match rev h with
      | Goto p' _ (Some Commit) _ :: _ => Nat.eqb p p'
      | _ => false
      end
  | _ => true
  end.

Definition nav_static (c : call) : bool :=
  match c with
  | WaitForLoadState _ _ _ => false
  | _ => nav_ok [] c
  end.

(** C8 as stated, on traces: a click or fill acts on a locator built on the
    page that [context.pages[-1]] gave when it was read for this step, that
    is, just before the settle delay of the step. *)
Definition fresh (o : oracle) (h : list call) (c : call) : bool :=
  match c with
  | Click l _ | Fill l _ =>
      match rev h with
      | WaitForTimeout _ _ :: GetPages :: before =>
          match l, rev (pages_of o (rev before)) with
          | Nth (Loc fr _) _, active :: _ => Nat.eqb fr active
          | _, _ => false
          end
      | _ => false
      end
  | _ => true
  end.

(** A browser that opens a second page once the twelve steps of
    TC013 (role dashboards) are done, that is, after 45 calls. *)
Definition popup : oracle :=
  {| raises := fun _ _ => None;
     new_page_of := fun _ => 1%nat;
     pages_of := fun h =>
       if (45 <=? List.length h)%nat then [1%nat; 2%nat] else [1%nat];
     frames_of := fun _ _ => [0%nat];
     url_of := fun _ _ => "http://localhost:3000/";
     visible_of := fun _ _ => true;
     count_of := fun _ _ => 1;
     text_of := fun _ _ => None;
     title_of := fun _ _ => "JobPortal Pro" |}.

Definition logout_locator (fr : page) : locator :=
  Loc fr ("xpath=//button[text()=" ++ dq ++ "Logout" ++ dq ++ "]").

(** The interaction phase of TC013 (role dashboards): lines 10-111. *)
Definition TC013R_interaction : M page := p <- setup ;; TC013R_steps p.

Definition TC013R_name : string :=
  "TC013_Role_Based_Dashboard_Data_Accuracy_and_Real_Time_Updates".

(** A page on which nothing matches any locator. *)
Definition empty_page : oracle := calm false 0.

(** * Further vocabulary *)

(** ** Which exceptions a script drops *)

Definition is_read (c : call) : bool :=
  match c with GetPages | GetFrames _ | GetUrl _ => true | _ => false end.

Definition is_load_wait (c : call) : bool :=
  match c with
  | WaitForLoadState _ _ _ | FrameWaitForLoadState _ _ _ => true
  | _ => false
  end.

(** The oracle's answer [e] to call [c] has no effect on the script: [c] is
    a property read, which cannot fail, or a load wait inside
    [try/except async_api.Error] failing with a Playwright error. *)
Definition dropped (c : call) (e : exn) : bool :=
  is_read c || (is_load_wait c && is_playwright_error e).

(** A call whose exception is not dropped is the last call, and that
    exception is the way the computation ends. *)
Definition fail_fast (o : oracle) : post :=
  fun h l s =>
    forall h1 c rest e,
      l = h1 ++ c :: rest ->
      raises o (h ++ h1) c = Some e ->
      dropped c e = false ->
      rest = [] /\ s = Some e.

(** A browser on which every navigation but the first times out. *)
Definition slow_pages : oracle :=
  with_raises
    (fun _ c => match c with
                | Goto _ _ None _ => Some PlaywrightTimeout
                | _ => None
                end)
    (calm true 1).

(** Three frames; the wait on the second one is cancelled. *)
Definition cancelled_frame : oracle :=
  {| raises := fun _ c =>
       match c with
       | FrameWaitForLoadState 1%nat _ _ => Some (OtherException 0)
       | _ => None
       end;
     new_page_of := fun _ => 1%nat;
     pages_of := fun _ => [1%nat];
     frames_of := fun _ _ => [0%nat; 1%nat; 2%nat];
     url_of := fun _ _ => "http://localhost:3000/";
     visible_of := fun _ _ => true;
     count_of := fun _ _ => 1;
     text_of := fun _ _ => None;
     title_of := fun _ _ => "JobPortal Pro" |}.

(** A context whose pages have all been closed. *)
Definition no_pages : oracle :=
  {| raises := fun _ _ => None;
     new_page_of := fun _ => 1%nat;
     pages_of := fun _ => [];
     frames_of := fun _ _ => [0%nat];
     url_of := fun _ _ => "http://localhost:3000/";
     visible_of := fun _ _ => true;
     count_of := fun _ _ => 1;
     text_of := fun _ _ => None;
     title_of := fun _ _ => "JobPortal Pro" |}.

(** ** Navigation targets *)

(** A navigation stays on the application under test. *)
Definition on_site (c : call) : bool :=
  match c with
  | Goto _ u _ _ => String.prefix start_url u
  | _ => true
  end.

(** ** The session of a run *)

(** The calls that build the session, in the order [setup] makes them. *)
Definition session_calls : list call :=
  [PwStart; launch_call; NewContext; SetDefaultTimeout 5000; NewPage].

Definition is_session_call (c : call) : bool :=
  match c with
  | PwStart | Launch _ _ | NewContext | SetDefaultTimeout _ | NewPage => true
  | _ => false
  end.

(** ** Scripts that cannot pass *)

Definition never_returns {A} (o : oracle) (m : M A) : Prop :=
  forall st a, snd (m o st) <> Ok a.

(** A browser on which every call returns and the context always has a
    page. *)
Definition cooperative (o : oracle) : Prop :=
  (forall h c, raises o h c = None) /\ (forall h, pages_of o h <> []).

(** [m] returns, whatever the state. *)
Definition succeeds {A} (o : oracle) (m : M A) : Prop :=
  forall st, exists st' a, m o st = (st', Ok a).

(** [m] ends with exception [e], whatever the state. *)
Definition ends_with {A} (o : oracle) (e : exn) (m : M A) : Prop :=
  forall st, snd (m o st) = Raise e.

Definition is_sleep (c : call) : bool :=
  match c with Sleep _ => true | _ => false end.

(** The names of the scripts that have a run that passes. *)
Definition passable : list string :=
  [ "TC002_Recruiter_Login_and_Access_Control";
    "TC007_Role_Based_Dashboards_Access_and_Data_Verification";
    TC013R_name ].

(** ** Reading a percentage *)

(** The number read so far, one more digit being read. *)
Definition shift_digit (acc : Z) (c : ascii) : Z := 10 * acc + digit_value c.

(** The number a string of digits denotes, from [acc]. *)
Fixpoint horner (acc : Z) (ds : string) : Z :=
  match ds with
  | EmptyString => acc
  | String c rest => horner (shift_digit acc c) rest
  end.

Fixpoint all_digits (s : string) : bool :=
  match s with
  | EmptyString => true
  | String c rest => is_digit c && all_digits rest
  end.

Fixpoint no_percent (s : string) : bool :=
  match s with
  | EmptyString => true
  | String c rest => negb (Ascii.eqb c "%"%char) && no_percent rest
  end.

(** The last character of [s] is a digit. *)
Fixpoint ends_in_digit (s : string) : bool :=
  match s with
  | EmptyString => false
  | String c EmptyString => is_digit c
  | String _ rest => ends_in_digit rest
  end.

Definition acc_of (run : option Z) : Z :=
  match run with Some v => v | None => 0 end.

(** A browser that is on the recruiter dashboard and shows nothing. *)
Definition on_dashboard : oracle :=
  {| raises := fun _ _ => None;
     new_page_of := fun _ => 1%nat;
     pages_of := fun _ => [1%nat];
     frames_of := fun _ _ => [0%nat];
     url_of := fun _ _ => "http://localhost:3000/recruiter/dashboard?tab=jobs";
     visible_of := fun _ _ => false;
     count_of := fun _ _ => 0;
     text_of := fun _ _ => None;
     title_of := fun _ _ => "JobPortal Pro" |}.

(** The time limits written in the scripts: 10000 ms for a navigation,
    3000 ms for a load wait or a settle delay, 5000 ms for the default
    timeout, for a click that names one and for a wait for visibility,
    5 s for the final sleep. *)
Definition fixed_limit (c : call) : bool :=
  match c with
  | Goto _ _ _ t => t =? 10000
  | WaitForLoadState _ _ t | FrameWaitForLoadState _ _ t
  | WaitForTimeout _ t => t =? 3000
  | SetDefaultTimeout t | WaitForVisible _ t | Click _ (Some t) => t =? 5000
  | Sleep s => s =? 5
  | _ => true
  end.

(** * Properties *)

(** ** Basic facts on the monad *)

Lemma bind_assoc {A B C} (m : M A) (k : A -> M B) (k' : B -> M C) o st :
  bind (bind m k) k' o st = bind m (fun a => bind (k a) k') o st.
Proof.
  unfold bind. destruct (m o st) as [st1 [a|e]]; reflexivity.
Qed.

Lemma bind_ext {A B} (m : M A) (k1 k2 : A -> M B) o st :
  (forall a st', k1 a o st' = k2 a o st') -> bind m k1 o st = bind m k2 o st.
Proof.
  intros H. unfold bind. destruct (m o st) as [st1 [a|e]]; [apply H | reflexivity].
Qed.

Lemma setup_bind {A} (k : page -> M A) o st :
  bind setup k o st =
  (start_playwright ;; launch_browser ;; new_context ;; setup_rest k) o st.
Proof.
  unfold setup, setup_rest.
  repeat (rewrite bind_assoc; apply bind_ext; intros ? ?).
  reflexivity.
Qed.

Lemma allh_app P h l1 l2 :
  allh P h (l1 ++ l2) = allh P h l1 && allh P (h ++ l1) l2.
Proof.
  revert h. induction l1 as [|c l1 IH]; intros h; simpl.
  - now rewrite app_nil_r.
  - rewrite IH, <- app_assoc. simpl. now rewrite andb_assoc.
Qed.

Lemma allh_forallb (P : call -> bool) h l :
  allh (fun _ => P) h l = forallb P l.
Proof.
  revert h. induction l as [|c l IH]; intros h; simpl; [reflexivity|].
  now rewrite IH.
Qed.

(** ** Rules for [runs] *)

Section Rules.
Variable o : oracle.
Variable Q : post.
Hypothesis HQ : sequential Q.

Lemma runs_silent {A} (m : M A) :
  (forall st, trace (fst (m o st)) = trace st) -> runs o Q m.
Proof.
  intros H st. exists []. rewrite app_nil_r. split; [apply H | apply HQ].
Qed.

Lemma runs_ret {A} (a : A) : runs o Q (ret a).
Proof. apply runs_silent. reflexivity. Qed.

Lemma runs_raise {A} e : runs o Q (@raise A e).
Proof. apply runs_silent. reflexivity. Qed.

Lemma runs_bind {A B} (m : M A) (k : A -> M B) :
  runs o Q m -> (forall a, runs o Q (k a)) -> runs o Q (bind m k).
Proof.
  intros Hm Hk st. destruct (Hm st) as [l1 [E1 Q1]].
  unfold bind. destruct (m o st) as [st1 [a|e]]; simpl in *.
  - destruct (Hk a st1) as [l2 [E2 Q2]].
    exists (l1 ++ l2). rewrite E2, E1, app_assoc. split; [reflexivity|].
    apply HQ; [assumption|]. now rewrite <- E1.
  - exists l1. now split.
Qed.

Lemma runs_perform c :
  (forall h, Q h [c] (raises o h c)) -> runs o Q (perform c).
Proof.
  intros H st. exists [c]. unfold perform.
  specialize (H (trace st)).
  destruct (raises o (trace st) c); simpl; now split.
Qed.

Lemma runs_query {A} c (f : oracle -> list call -> A) :
  (forall h, Q h [c] (raises o h c)) -> runs o Q (query c f).
Proof.
  intros H st. exists [c]. unfold query.
  specialize (H (trace st)).
  destruct (raises o (trace st) c); simpl; now split.
Qed.

Lemma runs_read {A} c (f : oracle -> list call -> A) :
  (forall h, Q h [c] None) -> runs o Q (read c f).
Proof. intros H st. exists [c]. simpl. now split. Qed.

Lemma runs_when b m : runs o Q m -> runs o Q (when b m).
Proof. destruct b; simpl; [trivial | intros _; apply runs_ret]. Qed.

Lemma runs_assert b msg : runs o Q (assert_ b msg).
Proof. destruct b; simpl; [apply runs_ret | apply runs_raise]. Qed.

Lemma runs_last_item xs : runs o Q (last_item xs).
Proof.
  unfold last_item. destruct (rev xs); [apply runs_raise | apply runs_ret].
Qed.

Lemma runs_for_each {A} (xs : list A) body :
  (forall x, runs o Q (body x)) -> runs o Q (for_each xs body).
Proof.
  intros H. induction xs as [|x xs IH]; simpl.
  - apply runs_ret.
  - apply runs_bind; [apply H | intros _; exact IH].
Qed.

Lemma runs_extract text : runs o Q (extract_coverage_percentage text).
Proof.
  unfold extract_coverage_percentage.
  destruct text as [s|]; [|apply runs_raise].
  destruct (search_percent s None); apply runs_ret.
Qed.

Lemma runs_window : runs o Q window_innerHeight.
Proof.
  unfold window_innerHeight. destruct (name_bound "window"); apply runs_raise.
Qed.

End Rules.

Section Family.
Variables (o : oracle) (Q : post) (good : call -> bool).
Hypothesis F : family o Q good.

Lemma fam_perform c : good c = true -> runs o Q (perform c).
Proof. intros H. apply runs_perform. intros h. now apply (fam_call F). Qed.

Lemma fam_query {A} c (f : oracle -> list call -> A) :
  good c = true -> runs o Q (query c f).
Proof. intros H. apply runs_query. intros h. now apply (fam_call F). Qed.

Lemma fam_read {A} c (f : oracle -> list call -> A) :
  good c = true -> quiet c = true -> runs o Q (read c f).
Proof. intros H H'. apply runs_read. intros h. now apply (fam_quiet F). Qed.

Lemma fam_try_except c :
  good c = true -> quiet c = true -> runs o Q (try_except_Error (perform c)).
Proof.
  intros H H' st. exists [c]. unfold try_except_Error, perform.
  pose proof (fam_call F c (trace st) H) as Hc.
  pose proof (fam_quiet F c (trace st) H H') as Hq.
  destruct (raises o (trace st) c) as [e|]; simpl.
  - destruct (is_playwright_error e); simpl; now split.
  - now split.
Qed.

End Family.

Lemma each_sequential P : sequential (each P).
Proof.
  split; unfold each.
  - reflexivity.
  - intros h l1 l2 _ H1 H2. rewrite allh_app, H1, H2. reflexivity.
Qed.

Lemma each_family o (P : call -> bool) :
  family o (each (fun _ => P)) P.
Proof.
  split.
  - apply each_sequential.
  - intros c h H. unfold each. simpl. now rewrite H.
  - intros c h H _. unfold each. simpl. now rewrite H.
Qed.

Lemma split_at_call (c : call) (l1 l2 h1 rest : list call) :
  l1 ++ l2 = h1 ++ c :: rest ->
  (exists r1, l1 = h1 ++ c :: r1 /\ rest = r1 ++ l2) \/
  (exists h1', h1 = l1 ++ h1' /\ l2 = h1' ++ c :: rest).
Proof.
  revert h1. induction l1 as [|x l1 IH]; intros h1 E.
  - right. exists h1. now split.
  - destruct h1 as [|y h1]; simpl in E; injection E as -> E.
    + left. exists l1. now split.
    + destruct (IH _ E) as [[r1 [-> ->]]|[h1' [-> ->]]].
      * left. exists r1. now split.
      * right. exists h1'. now split.
Qed.

Lemma halting_sequential o : sequential (halting o).
Proof.
  split; unfold halting.
  - intros h s h1 c rest e H. now destruct h1.
  - intros h l1 l2 s H1 H2 h1 c rest e E Hi Hr.
    destruct (split_at_call _ _ _ _ _ E) as [[r1 [-> ->]]|[h1' [-> ->]]].
    + destruct (H1 _ _ _ _ eq_refl Hi Hr) as [_ Habs]. discriminate.
    + rewrite app_assoc in Hr. exact (H2 _ _ _ _ eq_refl Hi Hr).
Qed.

Lemma quiet_not_interaction c : quiet c = true -> is_interaction c = false.
Proof. destruct c; simpl; congruence. Qed.

Lemma halting_family o : family o (halting o) (fun _ => true).
Proof.
  split.
  - apply halting_sequential.
  - intros c h _ h1 c' rest e E Hi Hr.
    destruct h1 as [|x h1]; simpl in E.
    + injection E as <- <-. rewrite app_nil_r in Hr. now split.
    + injection E as _ E. now destruct h1.
  - intros c h _ Hq h1 c' rest e E Hi Hr.
    destruct h1 as [|x h1]; simpl in E.
    + injection E as <- <-. apply quiet_not_interaction in Hq. congruence.
    + injection E as _ E. now destruct h1.
Qed.

(** ** Walking through a script *)

Ltac head_of t :=
  lazymatch t with
  | ?f _ => head_of f
  | _ => t
  end.

(** One rule of the walk; [leaf] comes first and handles what the family
    treats as a whole. *)
Ltac walk_step F leaf :=
  first
    [ leaf
    | apply runs_bind; [exact (fam_seq F)| |intro]
    | apply runs_ret; exact (fam_seq F)
    | apply runs_raise; exact (fam_seq F)
    | apply runs_assert; exact (fam_seq F)
    | apply runs_last_item; exact (fam_seq F)
    | apply runs_window; exact (fam_seq F)
    | apply runs_extract; exact (fam_seq F)
    | apply runs_when; [exact (fam_seq F)|]
    | apply runs_for_each; [exact (fam_seq F)|intro]
    | apply runs_silent; [exact (fam_seq F)|intro; reflexivity]
    | apply (fam_try_except F); reflexivity
    | apply (fam_perform F); reflexivity
    | apply (fam_query F); reflexivity
    | apply (fam_read F); reflexivity
    | match goal with
      | |- runs _ _ (if ?b then _ else _) => destruct b
      end
    | progress cbn [checkpoint List.map]
    | match goal with
      | |- runs _ _ ?m =>
          let f := head_of m in
          lazymatch f with
          | @bind => fail
          | @perform => fail
          | @query => fail
          | @read => fail
          | @try_except_Error => fail
          | @for_each => fail
          | _ => unfold f
          end
      end ].

Ltac walk F leaf := repeat walk_step F leaf.

(** Going through the eight scripts. *)
Ltac each_script H :=
  simpl in H;
  repeat (destruct H as [H|H]; [injection H as <- <-|]);
  [ .. | contradiction ].

(** ** Locals are assigned by the acquisitions only *)

Section Locals.
Variable o : oracle.

Lemma keeps_same {A} (m : M A) :
  (forall st, fst (m o st) = st) -> keeps_locals o m.
Proof. intros H st. now rewrite H. Qed.

Lemma keeps_bind {A B} (m : M A) (k : A -> M B) :
  keeps_locals o m -> (forall a, keeps_locals o (k a)) ->
  keeps_locals o (bind m k).
Proof.
  intros Hm Hk st. specialize (Hm st). unfold bind.
  destruct (m o st) as [st1 [a|e]]; simpl in *; [|assumption].
  now rewrite Hk.
Qed.

Lemma keeps_perform c : keeps_locals o (perform c).
Proof. intros st. unfold perform. now destruct (raises o (trace st) c). Qed.

Lemma keeps_query {A} c (f : oracle -> list call -> A) :
  keeps_locals o (query c f).
Proof. intros st. unfold query. now destruct (raises o (trace st) c). Qed.

Lemma keeps_read {A} c (f : oracle -> list call -> A) :
  keeps_locals o (read c f).
Proof. intros st. reflexivity. Qed.

Lemma keeps_try_except m :
  keeps_locals o m -> keeps_locals o (try_except_Error m).
Proof.
  intros Hm st. specialize (Hm st). unfold try_except_Error.
  destruct (m o st) as [st1 [a|e]]; simpl in *; [assumption|].
  now destruct (is_playwright_error e).
Qed.

Lemma keeps_for_each {A} (xs : list A) body :
  (forall x, keeps_locals o (body x)) -> keeps_locals o (for_each xs body).
Proof.
  intros H. induction xs as [|x xs IH]; simpl.
  - now apply keeps_same.
  - apply keeps_bind; [apply H | intros _; exact IH].
Qed.

Lemma keeps_assert b msg : keeps_locals o (assert_ b msg).
Proof. destruct b; now apply keeps_same. Qed.

Lemma keeps_last_item xs : keeps_locals o (last_item xs).
Proof. unfold last_item. destruct (rev xs); now apply keeps_same. Qed.

Lemma keeps_extract text : keeps_locals o (extract_coverage_percentage text).
Proof.
  unfold extract_coverage_percentage. destruct text as [s|].
  - destruct (search_percent s None); now apply keeps_same.
  - now apply keeps_same.
Qed.

Lemma keeps_window : keeps_locals o window_innerHeight.
Proof.
  unfold window_innerHeight. destruct (name_bound "window"); now apply keeps_same.
Qed.

End Locals.

Ltac keep_step :=
  first
    [ apply keeps_bind; [|intro]
    | apply keeps_perform
    | apply keeps_query
    | apply keeps_read
    | apply keeps_try_except
    | apply keeps_for_each; intro
    | apply keeps_assert
    | apply keeps_last_item
    | apply keeps_extract
    | apply keeps_window
    | apply keeps_same; intro; reflexivity
    | match goal with
      | |- keeps_locals _ (if ?b then _ else _) => destruct b
      end
    | progress cbn [checkpoint List.map]
    | progress unfold
        TC001_before, TC001_after, TC002_steps, TC002_asserts, dashboard_loaded,
        TC007_steps, TC007_asserts, TC011_steps, TC013R_steps, TC013R_checks,
        dashboard_asserts, count_positive, TC013S_before, TC013S_after,
        TC013S_checks, TC015_steps, TC016_before, TC016_checks,
        open_start_page, settle_frames, set_default_timeout, new_page,
        goto, wait_for_load_state, page_frames, frame_wait_for_load_state,
        context_pages, wait_for_timeout, click, fill, mouse_wheel, frame_url,
        is_visible, count, wait_for_visible, text_content, page_title, sleep,
        click_step, fill_step, scroll_step, resolve, locate ].

Ltac keep_walk := repeat keep_step.

Lemma setup_locals o (k : page -> M unit) :
  (forall p, keeps_locals o (k p)) ->
  let st := fst (bind setup k o initial) in
  truthy (pw st) = pw_acquired o /\
  truthy (browser st) = browser_acquired o /\
  truthy (context st) = context_acquired o.
Proof.
  intros Hk.
  assert (T : keeps_locals o (setup_rest k)).
  { unfold setup_rest. keep_walk. apply Hk. }
  cbv zeta. rewrite setup_bind.
  unfold context_acquired, browser_acquired, pw_acquired, launch_call.
  unfold start_playwright, launch_browser, new_context.
  unfold bind, perform, set_pw, set_browser, set_context. simpl.
  destruct (raises o [] PwStart); simpl; [auto|].
  destruct (raises o [PwStart] (Launch true chromium_args)); simpl; [auto|].
  destruct (raises o [PwStart; Launch true chromium_args] NewContext);
    simpl; [auto|].
  match goal with
  | |- context [fst (setup_rest k o ?s)] => pose proof (T s) as E
  end.
  unfold locals_of in E. simpl in E. injection E as -> -> ->. simpl. auto.
Qed.

Lemma body_locals o name body :
  In (name, body) scripts ->
  let st := fst (body o initial) in
  truthy (pw st) = pw_acquired o /\
  truthy (browser st) = browser_acquired o /\
  truthy (context st) = context_acquired o.
Proof.
  intros H. each_script H;
    match goal with
    | |- context [fst (?b o initial)] => unfold b
    end;
    apply setup_locals; intro p; keep_walk.
Qed.

(** ** No tear-down call is made by a [try] body *)

Lemma body_no_teardown o name body :
  In (name, body) scripts ->
  runs o (each (fun _ c => negb (is_teardown c))) body.
Proof.
  intros H.
  pose proof (each_family o (fun c => negb (is_teardown c))) as F.
  each_script H; walk F fail.
Qed.

(** ** What [finally] does *)

Lemma teardown_run o st :
  trace (fst (teardown o st)) =
    trace st ++ attempted o (trace st) (expected_teardown st) /\
  locals_of (fst (teardown o st)) = locals_of st.
Proof.
  unfold teardown, expected_teardown, get_context, get_browser, get_pw,
    when, bind, perform, ret, locals_of.
  destruct st as [tr w b c]. simpl.
  destruct c, b, w; simpl;
    repeat match goal with
           | |- context [raises o ?h ?c] => destruct (raises o h c); simpl
           end;
    rewrite <- ?app_assoc, ?app_nil_r; simpl; auto.
Qed.

Lemma attempted_all o h cs :
  teardown_returns o -> forallb is_teardown cs = true ->
  attempted o h cs = cs.
Proof.
  intros Ho. revert h. induction cs as [|c cs IH]; intros h Hc; simpl in *.
  - reflexivity.
  - apply andb_prop in Hc. destruct Hc as [Hc Hcs].
    rewrite (Ho h c Hc). now rewrite IH.
Qed.

Lemma expected_teardown_closes st :
  forallb is_teardown (expected_teardown st) = true.
Proof.
  unfold expected_teardown.
  destruct (context st), (browser st), (pw st); reflexivity.
Qed.

Lemma run_trace o (body : M unit) :
  let st1 := fst (body o initial) in
  trace (fst (run body o)) =
    trace st1 ++ attempted o (trace st1) (expected_teardown st1).
Proof.
  unfold run, run_test, try_finally. simpl.
  destruct (body o initial) as [st1 r1]. simpl.
  pose proof (teardown_run o st1) as [E _].
  destruct (teardown o st1) as [st2 [[]|e2]]; exact E.
Qed.

Lemma run_closes o name body :
  In (name, body) scripts ->
  expected_teardown (fst (body o initial)) =
    (if context_acquired o then [ContextClose] else []) ++
    (if browser_acquired o then [BrowserClose] else []) ++
    (if pw_acquired o then [PwStop] else []) /\
  trace (fst (run body o)) =
    trace (fst (body o initial)) ++
    attempted o (trace (fst (body o initial)))
      (expected_teardown (fst (body o initial))).
Proof.
  intros H.
  pose proof (body_locals o H) as [Hw [Hb Hc]]. cbv zeta in Hw, Hb, Hc.
  split.
  - unfold expected_teardown. now rewrite Hw, Hb, Hc.
  - apply run_trace.
Qed.



(** ** The frame settling loop *)

Lemma state_eta st :
  st = {| trace := trace st; pw := pw st; browser := browser st;
          context := context st |}.
Proof. now destruct st. Qed.

Lemma extend_nil st : extend st [] = st.
Proof. unfold extend. rewrite app_nil_r. symmetry. apply state_eta. Qed.

Lemma extend_log st c l : extend (log c st) l = extend st (c :: l).
Proof. unfold extend, log. simpl. now rewrite <- app_assoc. Qed.

Lemma frame_loop_tolerant o fs :
  (forall h f e, raises o h (frame_wait f) = Some e -> is_playwright_error e = true) ->
  forall st,
    for_each fs
      (fun f => try_except_Error (frame_wait_for_load_state f DomContentLoaded 3000))
      o st
    = (extend st (map frame_wait fs), Ok tt).
Proof.
  intros Ho. induction fs as [|f fs IH]; intros st; simpl.
  - unfold ret. now rewrite extend_nil.
  - unfold bind, try_except_Error, frame_wait_for_load_state, perform.
    fold (frame_wait f).
    destruct (raises o (trace st) (frame_wait f)) as [e|] eqn:E.
    + rewrite (Ho _ _ _ E). rewrite IH. now rewrite extend_log.
    + rewrite IH. now rewrite extend_log.
Qed.

(** C2. One pass of the settling loop over a page: the frames attached when
    the loop starts are read once; each of them is waited on once, in order,
    with the 3000 ms timeout; a wait that times out (or fails with any other
    Playwright error) removes no frame, does not stop the loop and does not
    make the pass fail. *)
Theorem settle_frames_tolerates_timeouts (o : oracle) (st : state) (p : page) :
  (forall h f e, raises o h (frame_wait f) = Some e -> is_playwright_error e = true) ->
  settle_frames p o st =
    (extend st (GetFrames p :: map frame_wait (frames_of o (trace st) p)), Ok tt).
Proof.
  intros Ho. unfold settle_frames, bind, page_frames, read.
  rewrite (frame_loop_tolerant o _ Ho). now rewrite extend_log.
Qed.

(** Three frames, the second one timing out. *)
Lemma settle_frames_tolerates_timeouts_witness :
  (forall h f e, raises stuck_frame h (frame_wait f) = Some e ->
                 is_playwright_error e = true) /\
  raises stuck_frame [GetFrames 7%nat; frame_wait 0%nat] (frame_wait 1%nat)
    = Some PlaywrightTimeout /\
  settle_frames 7%nat stuck_frame initial =
    (extend initial
       [GetFrames 7%nat; frame_wait 0%nat; frame_wait 1%nat; frame_wait 2%nat],
     Ok tt).
Proof.
  assert (H : forall h f e, raises stuck_frame h (frame_wait f) = Some e ->
                            is_playwright_error e = true).
  { intros h f e. simpl. destruct f as [|[|f]]; intros E; try discriminate.
    now injection E as <-. }
  split; [exact H|]. split; [reflexivity|].
  exact (settle_frames_tolerates_timeouts stuck_frame initial 7%nat H).
Defined.

(** ** Assertion checkpoints *)

(** C3, as stated, fails on the assertions of TC002: with a browser on
    which nothing is visible all four predicates are false, yet only the
    first is evaluated and only its message is reported, whereas a
    checkpoint that evaluates them all makes five calls and finds four
    failures. *)
Lemma checkpoint_skips_after_failure :
  let o := calm false 1 in
  trace (fst (checkpoint (TC002_asserts 1%nat) o initial)) =
    [GetUrl 1%nat; IsVisible (Loc 1%nat "text=Recruiter Dashboard")] /\
  snd (checkpoint (TC002_asserts 1%nat) o initial) =
    Raise (AssertionError (Some "Recruiter dashboard not loaded or URL mismatch")) /\
  List.length (trace (fst (collect_all (TC002_asserts 1%nat) o initial))) = 5%nat /\
  snd (collect_all (TC002_asserts 1%nat) o initial) =
    Ok (map snd (TC002_asserts 1%nat)) /\
  trace (fst (checkpoint (TC002_asserts 1%nat) o initial)) <>
    trace (fst (collect_all (TC002_asserts 1%nat) o initial)).
Proof.
  cbv zeta. repeat split; try reflexivity.
  vm_compute. discriminate.
Qed.

Lemma checkpoint_app pre post o st st1 :
  checkpoint pre o st = (st1, Ok tt) ->
  checkpoint (pre ++ post) o st = checkpoint post o st1.
Proof.
  revert st. induction pre as [|[e msg] pre IH]; intros st H; simpl in *.
  - unfold ret in H. now injection H as ->.
  - unfold bind in *. destruct (e o st) as [s1 [b|x]]; [|discriminate].
    destruct (assert_ b msg o s1) as [s2 [[]|x]]; [|discriminate].
    now apply IH.
Qed.

(** C3, amended.  The assertions of a checkpoint are evaluated in order;
    once the ones before it have held, the first predicate that is false
    ends the checkpoint with an [AssertionError] carrying its own message,
    in the state its evaluation left: the assertions after it are not
    evaluated. *)
Theorem checkpoint_first_failure
    (pre post : list (M bool * option string)) (e : M bool)
    (msg : option string) (o : oracle) (st st1 st2 : state) :
  checkpoint pre o st = (st1, Ok tt) ->
  e o st1 = (st2, Ok false) ->
  checkpoint (pre ++ (e, msg) :: post) o st = (st2, Raise (AssertionError msg)).
Proof.
  intros Hpre He. rewrite (checkpoint_app _ _ _ _ Hpre). simpl.
  unfold bind. now rewrite He.
Qed.

(** The heading is shown, the job posting link is not: the second of the
    four assertions of TC002 fails and the last two are not evaluated. *)
Lemma checkpoint_first_failure_witness :
  checkpoint (TC002_asserts 1%nat) heading_only initial =
    (extend initial
       [GetUrl 1%nat; IsVisible (Loc 1%nat "text=Recruiter Dashboard");
        IsVisible (Loc 1%nat "text=Post a Job")],
     Raise (AssertionError (Some "Post a Job feature not accessible"))).
Proof.
  exact (@checkpoint_first_failure
           [ (dashboard_loaded 1%nat,
              Some "Recruiter dashboard not loaded or URL mismatch") ]
           [ (is_visible (Loc 1%nat "text=Application Management"),
              Some "Application Management feature not accessible");
             (is_visible (Loc 1%nat "text=Interviewing"),
              Some "Interviewing feature not accessible") ]
           (is_visible (Loc 1%nat "text=Post a Job"))
           (Some "Post a Job feature not accessible")
           heading_only initial
           (extend initial
              [GetUrl 1%nat; IsVisible (Loc 1%nat "text=Recruiter Dashboard")])
           (extend initial
              [GetUrl 1%nat; IsVisible (Loc 1%nat "text=Recruiter Dashboard");
               IsVisible (Loc 1%nat "text=Post a Job")])
           eq_refl eq_refl).
Defined.

(** ** Outcome of a run *)

Lemma runs_try_finally_each o P (body fin : M unit) :
  runs o (each P) body -> runs o (each P) fin ->
  runs o (each P) (try_finally body fin).
Proof.
  intros Hb Hf st. destruct (Hb st) as [l1 [E1 Q1]].
  unfold try_finally. destruct (body o st) as [st1 r1]. simpl in *.
  destruct (Hf st1) as [l2 [E2 Q2]].
  exists (l1 ++ l2). unfold each in *.
  destruct (fin o st1) as [st2 [[]|e2]]; simpl in *;
    rewrite E2, E1, app_assoc, allh_app, Q1; rewrite <- E1, Q2; now split.
Qed.

Lemma teardown_ok o st : teardown_returns o -> snd (teardown o st) = Ok tt.
Proof.
  intros Ho.
  unfold teardown, get_context, get_browser, get_pw, when, bind, perform, ret.
  destruct st as [tr w b c]. simpl.
  destruct c, b, w; simpl; repeat (rewrite Ho by reflexivity; simpl); reflexivity.
Qed.

Lemma run_outcome o (body : M unit) :
  snd (run body o) =
    match snd (teardown o (fst (body o initial))) with
    | Ok _ => snd (body o initial)
    | Raise e2 => Raise e2
    end.
Proof.
  unfold run, run_test, try_finally.
  destruct (body o initial) as [st1 r1]. simpl.
  now destruct (teardown o st1) as [st2 [[]|e2]].
Qed.

Lemma run_outcome_quiet o (body : M unit) :
  teardown_returns o -> snd (run body o) = snd (body o initial).
Proof. intros Ho. rewrite run_outcome. now rewrite teardown_ok. Qed.

(** ** Failing steps *)

Lemma body_halting o name body :
  In (name, body) scripts -> runs o (halting o) body.
Proof.
  intros H. pose proof (halting_family o) as F.
  each_script H; walk F fail.
Qed.

(** C4, as stated, fails on TC001: when its first click times out, the run
    ends with that timeout; after the click only the three closes of the
    tear-down are made; none of the nine later steps is attempted. *)
Lemma failed_click_skips_later_steps :
  let o := first_click_times_out in
  let sign_up := Nth (Loc 1%nat "xpath=html/body/div/header/div/div[2]/div/a[2]") 0 in
  snd (run TC001_body o) = Raise PlaywrightTimeout /\
  trace (fst (run TC001_body o)) =
    [ PwStart; launch_call; NewContext; SetDefaultTimeout 5000; NewPage;
      Goto 1%nat "http://localhost:3000" (Some Commit) 10000;
      WaitForLoadState 1%nat DomContentLoaded 3000;
      GetFrames 1%nat; frame_wait 0%nat;
      GetPages; WaitForTimeout 1%nat 3000; Click sign_up (Some 5000);
      ContextClose; BrowserClose; PwStop ] /\
  existsb (fun c => match c with Fill _ _ => true | _ => false end)
    (trace (fst (run TC001_body o))) = false.
Proof. cbv zeta. repeat split; reflexivity. Qed.

(** C4, amended.  In every script, a click or fill that raises is the last
    call of the [try] body and its exception is the outcome of the body: no
    later step or assertion is executed.  The run then makes the closes of
    the tear-down and nothing else, and ends with that exception when the
    closes return. *)
Theorem failed_interaction_ends_body
    (o : oracle) (name : string) (body : M unit)
    (h rest : list call) (c : call) (e : exn) :
  In (name, body) scripts ->
  trace (fst (body o initial)) = h ++ c :: rest ->
  is_interaction c = true ->
  raises o h c = Some e ->
  rest = [] /\
  snd (body o initial) = Raise e /\
  trace (fst (run body o)) =
    (h ++ [c]) ++
    attempted o (h ++ [c]) (expected_teardown (fst (body o initial))) /\
  (teardown_returns o -> snd (run body o) = Raise e).
Proof.
  intros Hin Htr Hi Hr.
  destruct (body_halting o Hin initial) as [l [E Hl]]. simpl in E.
  rewrite E in Htr. subst l.
  destruct (Hl h c rest e eq_refl Hi Hr) as [-> Hs].
  assert (Hb : snd (body o initial) = Raise e).
  { destruct (snd (body o initial)); simpl in Hs; congruence. }
  repeat split.
  - exact Hb.
  - pose proof (run_trace o body) as R. cbv zeta in R. now rewrite E in R.
  - intros Ho. now rewrite run_outcome_quiet.
Qed.

Lemma failed_interaction_ends_body_witness :
  teardown_returns first_click_times_out /\
  snd (TC001_body first_click_times_out initial) = Raise PlaywrightTimeout /\
  snd (run TC001_body first_click_times_out) = Raise PlaywrightTimeout.
Proof.
  assert (Ho : teardown_returns first_click_times_out)
    by (intros h c Hc; destruct c; simpl in *; congruence).
  assert (Hin : In ("TC001_EmailPassword_Authentication_Success", TC001_body) scripts)
    by (simpl; auto).
  destruct (@failed_interaction_ends_body first_click_times_out _ _
              [ PwStart; launch_call; NewContext; SetDefaultTimeout 5000; NewPage;
                Goto 1%nat "http://localhost:3000" (Some Commit) 10000;
                WaitForLoadState 1%nat DomContentLoaded 3000;
                GetFrames 1%nat; frame_wait 0%nat;
                GetPages; WaitForTimeout 1%nat 3000 ]
              []
              (Click (Nth (Loc 1%nat "xpath=html/body/div/header/div/div[2]/div/a[2]") 0)
                 (Some 5000))
              PlaywrightTimeout Hin eq_refl eq_refl eq_refl)
    as [_ [Hb [_ Hrun]]].
  split; [exact Ho|]. split; [exact Hb|]. exact (Hrun Ho).
Defined.

(** ** One outcome per run *)

Lemma reported_family o : family o (reported o) (fun _ => true).
Proof.
  split; [split|..]; unfold reported.
  - reflexivity.
  - intros h l1 l2 s H1 H2 Hs. rewrite allh_app, H1, H2; auto.
  - intros c h _ Hs. simpl. unfold returned. rewrite Hs.
    now rewrite orb_true_r.
  - intros c h _ Hq _. simpl. unfold returned. now rewrite Hq.
Qed.

Lemma body_reported o name body :
  In (name, body) scripts -> runs o (reported o) body.
Proof.
  intros H. pose proof (reported_family o) as F.
  each_script H; walk F fail.
Qed.

Lemma teardown_reported o : runs o (reported o) teardown.
Proof. pose proof (reported_family o) as F. walk F fail. Qed.



(** ** Acquisition failures *)

Lemma setup_fails o (k : page -> M unit) :
  context_acquired o = false ->
  exists e,
    acquisition_error o = Some e /\
    snd (bind setup k o initial) = Raise e /\
    trace (fst (bind setup k o initial)) =
      attempted o [] [PwStart; launch_call; NewContext] /\
    context (fst (bind setup k o initial)) = None.
Proof.
  rewrite setup_bind.
  unfold context_acquired, browser_acquired, pw_acquired, acquisition_error,
    launch_call.
  unfold start_playwright, launch_browser, new_context.
  unfold bind, perform, set_pw, set_browser, set_context. simpl.
  destruct (raises o [] PwStart) as [e|]; simpl.
  { intros _. exists e. auto. }
  destruct (raises o [PwStart] (Launch true chromium_args)) as [e|]; simpl.
  { intros _. exists e. auto. }
  destruct (raises o [PwStart; Launch true chromium_args] NewContext) as [e|];
    simpl.
  { intros _. exists e. auto. }
  discriminate.
Qed.

Lemma body_acquisition_fails o name body :
  In (name, body) scripts ->
  context_acquired o = false ->
  exists e,
    acquisition_error o = Some e /\
    snd (body o initial) = Raise e /\
    trace (fst (body o initial)) =
      attempted o [] [PwStart; launch_call; NewContext] /\
    context (fst (body o initial)) = None.
Proof.
  intros H Hc. each_script H;
    match goal with
    | |- context [snd (?b o initial)] => unfold b
    end;
    now apply setup_fails.
Qed.

(** C7. When the session cannot be acquired (the playwright driver, the
    browser or the context fails to start), the body of every script makes
    the acquisition calls up to the failing one and nothing else: no page is
    opened and no step is attempted.  The tear-down then closes what was
    acquired and skips the rest, so it never touches a missing context; the
    run ends with the exception of the failed acquisition, which reads as an
    error, when the closes return. *)
Theorem acquisition_failure_is_error (o : oracle) (name : string) (body : M unit) :
  In (name, body) scripts ->
  context_acquired o = false ->
  exists e,
    acquisition_error o = Some e /\
    snd (body o initial) = Raise e /\
    trace (fst (body o initial)) =
      attempted o [] [PwStart; launch_call; NewContext] /\
    trace (fst (run body o)) =
      trace (fst (body o initial)) ++
      attempted o (trace (fst (body o initial)))
        ((if browser_acquired o then [BrowserClose] else []) ++
         (if pw_acquired o then [PwStop] else [])) /\
    (teardown_returns o ->
     snd (run body o) = Raise e /\
     ((forall msg, e <> AssertionError msg) ->
      verdict_of (snd (run body o)) = Error e)).
Proof.
  intros Hin Hc.
  destruct (body_acquisition_fails o Hin Hc) as [e [He [Hb [Ht Hx]]]].
  exists e. repeat split; try assumption.
  - destruct (run_closes o Hin) as [Hexp Htr].
    rewrite Htr, Hexp, Hc. reflexivity.
  - rewrite run_outcome_quiet by assumption. exact Hb.
  - intros Hmsg. rewrite run_outcome_quiet by assumption. rewrite Hb.
    destruct e; try reflexivity. now elim (Hmsg msg).
Qed.

(** Chromium cannot be launched: the driver is started, the launch fails,
    the driver is stopped, and the launch error is the outcome. *)
Lemma acquisition_failure_is_error_witness :
  In ("TC007_Role_Based_Dashboards_Access_and_Data_Verification", TC007_body)
    scripts /\
  context_acquired no_browser = false /\
  teardown_returns no_browser /\
  trace (fst (run TC007_body no_browser)) = [PwStart; launch_call; PwStop] /\
  exists e,
    acquisition_error no_browser = Some e /\
    snd (run TC007_body no_browser) = Raise e.
Proof.
  assert (Hin : In ("TC007_Role_Based_Dashboards_Access_and_Data_Verification",
                    TC007_body) scripts) by (simpl; auto).
  assert (Ho : teardown_returns no_browser)
    by (intros h c Hc; destruct c; simpl in *; congruence).
  destruct (acquisition_failure_is_error no_browser Hin eq_refl)
    as [e [He [_ [_ [_ Hq]]]]].
  split; [exact Hin|]. split; [reflexivity|]. split; [exact Ho|].
  split; [reflexivity|].
  exists e. split; [exact He|]. exact (proj1 (Hq Ho)).
Defined.

(** ** The scroll statement *)

Lemma scroll_step_raises p o st :
  scroll_step p o st = (st, Raise (NameError "window")).
Proof. reflexivity. Qed.

Lemma scroll_cut (before : page -> M page) (k : page -> M unit) o st :
  (p <- setup ;; before p ;; scroll_step p ;; k p) o st =
  cut_at_scroll before o st.
Proof.
  unfold cut_at_scroll.
  apply bind_ext. intros p st1. apply bind_ext. intros fr st2.
  reflexivity.
Qed.

Lemma scroll_scripts_cut before body o st :
  In (before, body) scroll_scripts -> body o st = cut_at_scroll before o st.
Proof.
  intros H. simpl in H.
  destruct H as [H|[H|[H|[]]]]; injection H as <- <-; apply scroll_cut.
Qed.

Lemma cut_never_returns before o st : snd (cut_at_scroll before o st) <> Ok tt.
Proof.
  unfold cut_at_scroll, bind.
  destruct (setup o st) as [st1 [p|e]]; simpl; [|discriminate].
  destruct (before p o st1) as [st2 [fr|e]]; simpl; discriminate.
Qed.

Lemma cut_calls before o :
  In before [TC001_before; TC013S_before; TC016_before] ->
  runs o (each (fun _ c => negb (after_scroll_only c)))
    (run_test (cut_at_scroll before)).
Proof.
  intros H.
  pose proof (each_family o (fun c => negb (after_scroll_only c))) as F.
  unfold run_test. apply runs_try_finally_each.
  - simpl in H. destruct H as [<-|[<-|[<-|[]]]];
      unfold cut_at_scroll; walk F fail.
  - walk F fail.
Qed.

(** C10. In TC001, TC013 (system build) and TC016 the scroll statement
    evaluates [window.innerHeight], and [window] is not a bound name.  So
    each of these scripts runs exactly like the script cut at that statement
    with [raise NameError]: whatever is written after it has no effect.  A
    run that reaches the statement has the body end there with
    [NameError], no call being made for the scroll; no run ever makes a
    mouse-wheel call or one of the calls of the statements that follow
    (counts, text reads, the title, the final sleep); no run returns
    normally; and the tear-down is made as in any other run. *)
Theorem scroll_raises_name_error
    (o : oracle) (before : page -> M page) (body : M unit) :
  In (before, body) scroll_scripts ->
  run body o = run (cut_at_scroll before) o /\
  (forall st1 fr,
     (p <- setup ;; before p) o initial = (st1, Ok fr) ->
     body o initial = (st1, Raise (NameError "window")) /\
     (teardown_returns o -> snd (run body o) = Raise (NameError "window"))) /\
  snd (run body o) <> Ok tt /\
  forallb (fun c => negb (after_scroll_only c)) (trace (fst (run body o))) = true /\
  trace (fst (run body o)) =
    trace (fst (body o initial)) ++
    attempted o (trace (fst (body o initial)))
      (expected_teardown (fst (body o initial))).
Proof.
  intros Hin.
  assert (Hrun : run body o = run (cut_at_scroll before) o).
  { unfold run, run_test, try_finally.
    now rewrite (scroll_scripts_cut o initial Hin). }
  split; [exact Hrun|]. split; [|split; [|split]].
  - intros st1 fr Hreach.
    assert (Hb : body o initial = (st1, Raise (NameError "window"))).
    { rewrite (scroll_scripts_cut o initial Hin). unfold cut_at_scroll.
      unfold bind in *. destruct (setup o initial) as [s1 [p|e]]; [|discriminate].
      destruct (before p o s1) as [s2 [fr'|e]]; [|discriminate].
      now injection Hreach as -> _. }
    split; [exact Hb|]. intros Ho.
    rewrite run_outcome_quiet by assumption. now rewrite Hb.
  - rewrite Hrun, run_outcome.
    destruct (snd (teardown o (fst (cut_at_scroll before o initial)))) as [[]|e2];
      [apply cut_never_returns | discriminate].
  - rewrite Hrun.
    assert (Hb : In before [TC001_before; TC013S_before; TC016_before]).
    { simpl in Hin. destruct Hin as [H|[H|[H|[]]]]; injection H as <- _;
        simpl; auto. }
    destruct (cut_calls o Hb initial) as [l [E Hl]]. unfold run.
    rewrite E. simpl. unfold each in Hl. now rewrite allh_forallb in Hl.
  - apply run_trace.
Qed.

(** TC016 on a browser where every call succeeds: the body stops at line
    59 after thirteen calls and the run ends with the name error. *)
Lemma scroll_raises_name_error_witness :
  In (TC016_before, TC016_body) scroll_scripts /\
  teardown_returns (calm true 1) /\
  List.length (trace (fst (TC016_body (calm true 1) initial))) = 13%nat /\
  snd (run TC016_body (calm true 1)) = Raise (NameError "window").
Proof.
  assert (Hin : In (TC016_before, TC016_body) scroll_scripts) by (simpl; auto).
  assert (Ho : teardown_returns (calm true 1)) by (intros h c _; reflexivity).
  destruct (scroll_raises_name_error (calm true 1) Hin) as [_ [Hreach _]].
  split; [exact Hin|]. split; [exact Ho|]. split; [reflexivity|].
  exact (proj2 (Hreach _ _ eq_refl) Ho).
Defined.

(** ** Navigation *)

Lemma each_family_static o P (good : call -> bool) :
  (forall h c, good c = true -> P h c = true) ->
  family o (each P) good.
Proof.
  intros H. split.
  - apply each_sequential.
  - intros c h Hc. unfold each. simpl. now rewrite (H h c Hc).
  - intros c h Hc _. unfold each. simpl. now rewrite (H h c Hc).
Qed.

Lemma nav_family o : family o (each nav_ok) nav_static.
Proof.
  apply each_family_static. intros h c. destruct c; simpl; congruence.
Qed.

Lemma open_start_page_nav o p : runs o (each nav_ok) (open_start_page p).
Proof.
  intros st.
  unfold open_start_page, goto, wait_for_load_state, bind, try_except_Error,
    perform, each.
  destruct (raises o (trace st) (Goto p "http://localhost:3000" (Some Commit) 10000)).
  - exists [Goto p "http://localhost:3000" (Some Commit) 10000]. now split.
  - exists [Goto p "http://localhost:3000" (Some Commit) 10000;
            WaitForLoadState p DomContentLoaded 3000].
    split.
    + simpl trace.
      destruct (raises o _ (WaitForLoadState p DomContentLoaded 3000)) as [e|];
        [destruct (is_playwright_error e)|]; simpl; now rewrite <- app_assoc.
    + simpl. rewrite rev_unit, Nat.eqb_refl. reflexivity.
Qed.

Lemma open_start_page_swallows o p st :
  raises o (trace st) (Goto p start_url (Some Commit) 10000) = None ->
  (forall e,
     raises o (trace st ++ [Goto p start_url (Some Commit) 10000])
       (WaitForLoadState p DomContentLoaded 3000) = Some e ->
     is_playwright_error e = true) ->
  open_start_page p o st =
    (extend st [Goto p start_url (Some Commit) 10000;
                WaitForLoadState p DomContentLoaded 3000], Ok tt).
Proof.
  intros Hg Hw.
  unfold open_start_page, goto, wait_for_load_state, bind, try_except_Error,
    perform. fold start_url. rewrite Hg. simpl trace.
  rewrite <- extend_log, <- extend_log, extend_nil.
  destruct (raises o _ (WaitForLoadState p DomContentLoaded 3000)) as [e|] eqn:E.
  - now rewrite (Hw e eq_refl).
  - reflexivity.
Qed.

Lemma run_nav o name body :
  In (name, body) scripts -> runs o (each nav_ok) (run_test body).
Proof.
  intros H. pose proof (nav_family o) as F.
  unfold run_test. apply runs_try_finally_each.
  - each_script H; walk F ltac:(apply open_start_page_nav).
  - walk F fail.
Qed.




(** ** Resolution of elements *)

Lemma fresh_family o :
  family o (each (fresh o)) (fun c => negb (is_interaction c)).
Proof.
  apply each_family_static. intros h c. destruct c; simpl; congruence.
Qed.

Lemma fresh_after_read o h p ms fr path i rest :
  rev (pages_of o h) = fr :: rest ->
  forall c,
    c = Click (Nth (Loc fr path) i) ms \/ (exists v, c = Fill (Nth (Loc fr path) i) v) ->
    allh (fresh o) h [GetPages; WaitForTimeout p 3000; c] = true.
Proof.
  intros E c Hc. simpl.
  assert (G : fresh o ((h ++ [GetPages]) ++ [WaitForTimeout p 3000]) c = true).
  { destruct Hc as [->|[v ->]]; simpl;
      rewrite !rev_unit, rev_involutive, E; apply Nat.eqb_refl. }
  rewrite G. destruct Hc as [->|[v ->]]; reflexivity.
Qed.

Lemma click_step_fresh o p path : runs o (each (fresh o)) (click_step p path).
Proof.
  intros st.
  unfold click_step, resolve, locate, context_pages, read, last_item,
    wait_for_timeout, click, bind, perform, ret, each.
  simpl trace.
  destruct (rev (pages_of o (trace st))) as [|fr rest] eqn:E.
  - exists [GetPages]. now split.
  - simpl.
    destruct (raises o (trace st ++ [GetPages]) (WaitForTimeout p 3000)).
    + exists [GetPages; WaitForTimeout p 3000]. simpl.
      rewrite <- app_assoc. now split.
    + simpl.
      exists [GetPages; WaitForTimeout p 3000;
              Click (Nth (Loc fr path) 0) (Some 5000)].
      split.
      * destruct (raises o _ (Click (Nth (Loc fr path) 0) (Some 5000)));
          simpl; now rewrite <- !app_assoc.
      * eapply fresh_after_read; [exact E | left; reflexivity].
Qed.

Lemma fill_step_fresh o p path v : runs o (each (fresh o)) (fill_step p path v).
Proof.
  intros st.
  unfold fill_step, resolve, locate, context_pages, read, last_item,
    wait_for_timeout, fill, bind, perform, ret, each.
  simpl trace.
  destruct (rev (pages_of o (trace st))) as [|fr rest] eqn:E.
  - exists [GetPages]. now split.
  - simpl.
    destruct (raises o (trace st ++ [GetPages]) (WaitForTimeout p 3000)).
    + exists [GetPages; WaitForTimeout p 3000]. simpl.
      rewrite <- app_assoc. now split.
    + simpl.
      exists [GetPages; WaitForTimeout p 3000; Fill (Nth (Loc fr path) 0) v].
      split.
      * destruct (raises o _ (Fill (Nth (Loc fr path) 0) v));
          simpl; now rewrite <- !app_assoc.
      * eapply (@fresh_after_read o _ p None _ _ _ _ E). right; eexists; reflexivity.
Qed.

Ltac fresh_leaf := first [apply click_step_fresh | apply fill_step_fresh].

(** C8, as stated, fails on TC013 (role dashboards).  On a browser that
    opens a second page after the twelve steps, the two clicks on the
    logout button (calls 49 and 55 of the run) use one and the same locator,
    built on the page that the step of line 109 had read, while
    [context.pages[-1]] has been the new page since call 45. *)
Lemma logout_locator_is_reused :
  let tr := trace (fst (run TC013R_body popup)) in
  allh (fresh popup) [] tr = false /\
  nth_error tr 49 = Some (Click (logout_locator 1%nat) None) /\
  nth_error tr 55 = Some (Click (logout_locator 1%nat) None) /\
  pages_of popup (firstn 49 tr) = [1%nat; 2%nat] /\
  existsb (fun c => match c with GetPages => true | _ => false end)
    (skipn 45 tr) = false.
Proof. cbv zeta. repeat split; reflexivity. Qed.

Lemma fresh_runs o name body :
  In (name, body) scripts -> name <> TC013R_name ->
  runs o (each (fresh o)) (run_test body).
Proof.
  intros H Hne. pose proof (fresh_family o) as F.
  unfold run_test. apply runs_try_finally_each.
  - each_script H; try (now elim Hne); walk F fresh_leaf.
  - walk F fail.
Qed.

(** C8, amended.  In every run of the seven scripts other than TC013 (role
    dashboards), and in the interaction phase (lines 10-111) of that one,
    every click and every fill acts on a locator built on the page that
    [context.pages[-1]] gave when the step read it, the read being followed
    by the settle delay and then by the action.  (Locators are lazy: the
    document is searched by the browser when the action is made.) *)
Theorem steps_resolve_afresh (o : oracle) :
  (forall name body,
     In (name, body) scripts -> name <> TC013R_name ->
     allh (fresh o) [] (trace (fst (run body o))) = true) /\
  allh (fresh o) [] (trace (fst (TC013R_interaction o initial))) = true.
Proof.
  split.
  - intros name body Hin Hne.
    destruct (fresh_runs o Hin Hne initial) as [l [E Hl]]. unfold run.
    rewrite E. exact Hl.
  - pose proof (fresh_family o) as F.
    assert (R : runs o (each (fresh o)) TC013R_interaction)
      by (unfold TC013R_interaction; walk F fresh_leaf).
    destruct (R initial) as [l [E Hl]]. rewrite E. exact Hl.
Qed.

Lemma steps_resolve_afresh_witness :
  In ("TC015_Interview_Management_with_Scheduling_and_Reminder_Notifications",
      TC015_body) scripts /\
  "TC015_Interview_Management_with_Scheduling_and_Reminder_Notifications"
    <> TC013R_name /\
  allh (fresh popup) [] (trace (fst (run TC015_body popup))) = true.
Proof.
  assert (Hin : In ("TC015_Interview_Management_with_Scheduling_and_Reminder_Notifications",
                    TC015_body) scripts) by (simpl; auto 10).
  assert (Hne : "TC015_Interview_Management_with_Scheduling_and_Reminder_Notifications"
                <> TC013R_name) by discriminate.
  split; [exact Hin|]. split; [exact Hne|].
  exact (proj1 (steps_resolve_afresh popup) _ _ Hin Hne).
Defined.



(** * Further properties *)

(** ** Which failures end a script *)

Lemma fail_fast_sequential o : sequential (fail_fast o).
Proof.
  split; unfold fail_fast.
  - intros h s h1 c rest e H. now destruct h1.
  - intros h l1 l2 s H1 H2 h1 c rest e E Hr Hd.
    destruct (split_at_call _ _ _ _ _ E) as [[r1 [-> ->]]|[h1' [-> ->]]].
    + destruct (H1 _ _ _ _ eq_refl Hr Hd) as [_ Habs]. discriminate.
    + rewrite app_assoc in Hr. exact (H2 _ _ _ _ eq_refl Hr Hd).
Qed.

Lemma single_call (c c' : call) (h1 rest : list call) :
  [c] = h1 ++ c' :: rest -> h1 = [] /\ c' = c /\ rest = [].
Proof.
  destruct h1 as [|x h1]; simpl; intros E.
  - now injection E as <- <-.
  - injection E as _ E. now destruct h1.
Qed.

Lemma fail_fast_family o :
  family o (fail_fast o) (fun c => negb (is_load_wait c)).
Proof.
  split.
  - apply fail_fast_sequential.
  - intros c h _ h1 c' rest e E Hr Hd.
    destruct (single_call _ _ _ E) as [-> [-> ->]].
    rewrite app_nil_r in Hr. now split.
  - intros c h Hg Hq h1 c' rest e E Hr Hd.
    destruct (single_call _ _ _ E) as [-> [-> ->]].
    unfold dropped in Hd. destruct c; simpl in *; discriminate.
Qed.

Lemma fail_fast_try_except o c :
  is_load_wait c = true -> runs o (fail_fast o) (try_except_Error (perform c)).
Proof.
  intros Hc st. exists [c]. unfold try_except_Error, perform.
  destruct (raises o (trace st) c) as [e|] eqn:R; simpl.
  - destruct (is_playwright_error e) eqn:P; simpl; (split; [reflexivity|]);
      intros h1 c' rest e' E Hr Hd;
      destruct (single_call _ _ _ E) as [-> [-> ->]];
      rewrite app_nil_r, R in Hr; injection Hr as <-.
    + unfold dropped in Hd. rewrite Hc, P, orb_true_r in Hd. discriminate.
    + now split.
  - split; [reflexivity|]. intros h1 c' rest e' E Hr Hd.
    destruct (single_call _ _ _ E) as [-> [-> ->]].
    rewrite app_nil_r, R in Hr. discriminate.
Qed.

Lemma body_fail_fast o name body :
  In (name, body) scripts -> runs o (fail_fast o) body.
Proof.
  intros H. pose proof (fail_fast_family o) as F.
  each_script H; walk F ltac:(apply fail_fast_try_except; reflexivity).
Qed.

(** X1. In every script the only failures that do not end the [try] body
    are Playwright errors of the two kinds of load wait.  Any other call
    that raises (a navigation, a settle delay, a click or fill, a count, a
    visibility or text query, the title, the final sleep, a session call; or
    a load wait raising something that is not a Playwright error) is the
    last call of the body, and its exception is the outcome of the body,
    and of the run when the closes return. *)
Theorem body_stops_at_first_failure
    (o : oracle) (name : string) (body : M unit)
    (h rest : list call) (c : call) (e : exn) :
  In (name, body) scripts ->
  trace (fst (body o initial)) = h ++ c :: rest ->
  raises o h c = Some e ->
  dropped c e = false ->
  rest = [] /\
  snd (body o initial) = Raise e /\
  (teardown_returns o -> snd (run body o) = Raise e).
Proof.
  intros Hin Htr Hr Hd.
  destruct (body_fail_fast o Hin initial) as [l [E Hl]]. simpl in E.
  rewrite E in Htr. subst l.
  destruct (Hl h c rest e eq_refl Hr Hd) as [-> Hs].
  assert (Hb : snd (body o initial) = Raise e).
  { destruct (snd (body o initial)); simpl in Hs; congruence. }
  repeat split; [exact Hb|].
  intros Ho. now rewrite run_outcome_quiet.
Qed.

(** TC011 when the navigation to the jobs page (call 33) times out. *)
Lemma body_stops_at_first_failure_witness :
  teardown_returns slow_pages /\
  List.length (trace (fst (TC011_body slow_pages initial))) = 34%nat /\
  snd (run TC011_body slow_pages) = Raise PlaywrightTimeout.
Proof.
  assert (Ho : teardown_returns slow_pages)
    by (intros h c Hc; destruct c; simpl in *; congruence).
  assert (Hin : In ("TC011_Candidate_Application_and_Status_Tracking", TC011_body)
                  scripts) by (simpl; auto).
  destruct (@body_stops_at_first_failure slow_pages _ _
              (firstn 33 (trace (fst (TC011_body slow_pages initial)))) []
              (Goto 1%nat "http://localhost:3000/jobs" None 10000)
              PlaywrightTimeout Hin eq_refl eq_refl eq_refl)
    as [_ [_ Hrun]].
  split; [exact Ho|]. split; [reflexivity|]. exact (Hrun Ho).
Defined.

(** ** The settling loop and other exceptions *)

Lemma frame_wait_step o g st :
  try_except_Error (frame_wait_for_load_state g DomContentLoaded 3000) o st =
    match raises o (trace st) (frame_wait g) with
    | Some e =>
        if is_playwright_error e then (log (frame_wait g) st, Ok tt)
        else (log (frame_wait g) st, Raise e)
    | None => (log (frame_wait g) st, Ok tt)
    end.
Proof.
  unfold try_except_Error, frame_wait_for_load_state, perform.
  fold (frame_wait g). now destruct (raises o (trace st) (frame_wait g)).
Qed.

Lemma frame_loop_aborts o pre f post e :
  (forall h g e', In g pre -> raises o h (frame_wait g) = Some e' ->
                  is_playwright_error e' = true) ->
  is_playwright_error e = false ->
  forall st,
    raises o (trace st ++ map frame_wait pre) (frame_wait f) = Some e ->
    for_each (pre ++ f :: post)
      (fun f => try_except_Error (frame_wait_for_load_state f DomContentLoaded 3000))
      o st
    = (extend st (map frame_wait (pre ++ [f])), Raise e).
Proof.
  intros Hpre He. induction pre as [|g pre IH]; intros st Hf; simpl in *.
  - unfold bind. rewrite frame_wait_step.
    rewrite app_nil_r in Hf. rewrite Hf, He.
    now rewrite <- extend_log, extend_nil.
  - assert (Hlog : raises o (trace (log (frame_wait g) st) ++ map frame_wait pre)
                     (frame_wait f) = Some e).
    { simpl. now rewrite <- app_assoc. }
    assert (Hpre' : forall h g' e', In g' pre ->
                      raises o h (frame_wait g') = Some e' ->
                      is_playwright_error e' = true).
    { intros h g' e' Hin. apply Hpre. now right. }
    specialize (IH Hpre' _ Hlog).
    unfold bind. rewrite frame_wait_step.
    destruct (raises o (trace st) (frame_wait g)) as [e'|] eqn:E.
    + rewrite (Hpre _ g e' (or_introl eq_refl) E).
      rewrite IH. now rewrite extend_log.
    + rewrite IH. now rewrite extend_log.
Qed.

(** X2. The settling loop swallows Playwright errors only.  When the wait
    on a frame raises anything else (a cancellation, say), after the waits
    on the frames before it returned or failed with Playwright errors, the
    pass ends with that exception right there: the frames after it are not
    waited on. *)
Theorem settle_frames_stops_on_other_exceptions
    (o : oracle) (st : state) (p : page)
    (pre post : list frame) (f : frame) (e : exn) :
  frames_of o (trace st) p = pre ++ f :: post ->
  (forall h g e', In g pre -> raises o h (frame_wait g) = Some e' ->
                  is_playwright_error e' = true) ->
  raises o (trace st ++ GetFrames p :: map frame_wait pre) (frame_wait f) = Some e ->
  is_playwright_error e = false ->
  settle_frames p o st =
    (extend st (GetFrames p :: map frame_wait (pre ++ [f])), Raise e).
Proof.
  intros Hfs Hpre Hf He.
  unfold settle_frames, bind, page_frames, read. rewrite Hfs.
  rewrite (@frame_loop_aborts o pre f post e Hpre He).
  - now rewrite extend_log.
  - simpl. now rewrite <- app_assoc.
Qed.

Lemma settle_frames_stops_on_other_exceptions_witness :
  settle_frames 7%nat cancelled_frame initial =
    (extend initial [GetFrames 7%nat; frame_wait 0%nat; frame_wait 1%nat],
     Raise (OtherException 0)).
Proof.
  apply (@settle_frames_stops_on_other_exceptions cancelled_frame initial 7%nat
           [0%nat] [2%nat] 1%nat (OtherException 0)).
  - reflexivity.
  - intros h g e' [<-|[]] E. discriminate.
  - reflexivity.
  - reflexivity.
Defined.

(** ** Steps on a context without pages *)

(** X3. When the context has no page left at the time a step reads
    [context.pages], the step ends with [IndexError] right after the read:
    it neither waits nor acts, for a click as for a fill. *)
Theorem step_without_page_raises_index_error
    (o : oracle) (st : state) (p : page) (path value : string) :
  pages_of o (trace st) = [] ->
  click_step p path o st = (log GetPages st, Raise IndexError) /\
  fill_step p path value o st = (log GetPages st, Raise IndexError).
Proof.
  intros H.
  unfold click_step, fill_step, resolve, context_pages, read, last_item, bind.
  rewrite H. split; reflexivity.
Qed.

Lemma step_without_page_raises_index_error_witness :
  click_step 1%nat "xpath=html/body/div/header/div/div[2]/div/a" no_pages initial =
    (log GetPages initial, Raise IndexError).
Proof.
  exact (proj1 (@step_without_page_raises_index_error no_pages initial 1%nat
                  "xpath=html/body/div/header/div/div[2]/div/a" "" eq_refl)).
Defined.

(** ** Checkpoints against a collector *)

Lemma assert_ok b msg o st st' :
  assert_ b msg o st = (st', Ok tt) -> b = true /\ st' = st.
Proof.
  destruct b; simpl; unfold ret, raise; intros E.
  - now injection E as ->.
  - discriminate.
Qed.

(** X4. A checkpoint and the collecting checkpoint of the specification
    agree on success: the run of [assert] statements returns exactly when
    collecting every result finds no failure, and both then leave the
    same state (so the same calls were made). *)
Theorem checkpoint_passes_iff_nothing_collected
    (asserts : list (M bool * option string)) (o : oracle) (st st' : state) :
  checkpoint asserts o st = (st', Ok tt) <->
  collect_all asserts o st = (st', Ok []).
Proof.
  revert st. induction asserts as [|[e msg] rest IH]; intros st; simpl.
  - unfold ret. split; intros E; now injection E as ->.
  - unfold bind. destruct (e o st) as [s1 [b|x]]; [|split; discriminate].
    destruct b; simpl.
    + rewrite IH. unfold ret.
      destruct (collect_all rest o s1) as [s2 [failed|x]]; split; intros E;
        try discriminate; injection E as -> ->; reflexivity.
    + unfold raise, ret. split; [discriminate|].
      destruct (collect_all rest o s1) as [s2 [failed|x]]; discriminate.
Qed.



(** ** Where the scripts navigate *)

Lemma run_on_site o name body :
  In (name, body) scripts -> runs o (each (fun _ => on_site)) (run_test body).
Proof.
  intros H. pose proof (each_family o on_site) as F.
  unfold run_test. apply runs_try_finally_each.
  - each_script H; walk F fail.
  - walk F fail.
Qed.

Lemma prefix_app n s : String.prefix n s = true <-> exists post, s = (n ++ post)%string.
Proof.
  revert s. induction n as [|c n IH]; intros s; simpl.
  - destruct s; (split; [intros _; eexists; reflexivity | intros _; reflexivity]).
  - destruct s as [|d s].
    + split; [discriminate | intros [post E]; discriminate].
    + simpl. destruct (ascii_dec c d) as [->|Hne].
      * rewrite IH. split; intros [post E]; exists post; [now rewrite E|].
        now injection E.
      * split; [discriminate|]. intros [post E]. now injection E as <- _.
Qed.

(** X6. No run of any script navigates away from the application under
    test: the address of every navigation starts with
    [http://localhost:3000]. *)
Theorem navigation_stays_on_site
    (o : oracle) (name : string) (body : M unit)
    (p : page) (u : string) (w : option load_state) (t : Z) :
  In (name, body) scripts ->
  In (Goto p u w t) (trace (fst (run body o))) ->
  exists rest, u = (start_url ++ rest)%string.
Proof.
  intros Hin Hg.
  destruct (run_on_site o Hin initial) as [l [E Hl]]. unfold run in Hg.
  rewrite E in Hg. simpl in Hg. unfold each in Hl.
  rewrite allh_forallb, forallb_forall in Hl.
  specialize (Hl _ Hg). simpl in Hl. now apply prefix_app.
Qed.

Lemma navigation_stays_on_site_witness :
  exists rest, "http://localhost:3000/jobs" = (start_url ++ rest)%string.
Proof.
  apply (@navigation_stays_on_site (calm true 1)
           "TC011_Candidate_Application_and_Status_Tracking" TC011_body
           1%nat "http://localhost:3000/jobs" None 10000).
  - simpl; auto.
  - apply (nth_error_In _ 33). reflexivity.
Defined.

(** ** One session per run *)

Lemma session_then_rest o (k : page -> M unit) :
  (forall p, runs o (each (fun _ c => negb (is_session_call c))) (k p)) ->
  exists n l,
    trace (fst (bind setup k o initial)) = firstn n session_calls ++ l /\
    forallb (fun c => negb (is_session_call c)) l = true.
Proof.
  intros Hk.
  pose proof (each_family o (fun c => negb (is_session_call c))) as F.
  assert (R : forall p,
            runs o (each (fun _ c => negb (is_session_call c)))
              (open_start_page p ;; settle_frames p ;; k p)).
  { intros p. walk F ltac:(apply Hk). }
  rewrite setup_bind. unfold setup_rest, session_calls, launch_call.
  unfold start_playwright, launch_browser, new_context, set_default_timeout,
    new_page.
  unfold bind at 1. unfold bind at 1. unfold perform at 1. simpl trace.
  destruct (raises o [] PwStart).
  { exists 1%nat, []. now split. }
  unfold set_pw at 1. simpl trace.
  unfold bind at 1. unfold bind at 1. unfold perform at 1. simpl trace.
  destruct (raises o [PwStart] (Launch true chromium_args)).
  { exists 2%nat, []. now split. }
  unfold set_browser at 1. simpl trace.
  unfold bind at 1. unfold bind at 1. unfold perform at 1. simpl trace.
  destruct (raises o [PwStart; Launch true chromium_args] NewContext).
  { exists 3%nat, []. now split. }
  unfold set_context at 1. simpl trace.
  unfold bind at 1. unfold perform at 1. simpl trace.
  destruct (raises o [PwStart; Launch true chromium_args; NewContext]
              (SetDefaultTimeout 5000)).
  { exists 4%nat, []. now split. }
  unfold bind at 1. unfold query at 1. simpl trace.
  destruct (raises o
              [PwStart; Launch true chromium_args; NewContext;
               SetDefaultTimeout 5000] NewPage).
  { exists 5%nat, []. now split. }
  cbv beta.
  match goal with
  | |- context [fst (bind (open_start_page ?p) _ o ?s)] =>
      destruct (R p s) as [l [E Hl]]
  end.
  exists 5%nat, l. rewrite E. split; [reflexivity|].
  unfold each in Hl. now rewrite allh_forallb in Hl.
Qed.

Lemma body_session o name body :
  In (name, body) scripts ->
  exists n l,
    trace (fst (body o initial)) = firstn n session_calls ++ l /\
    forallb (fun c => negb (is_session_call c)) l = true.
Proof.
  intros H.
  pose proof (each_family o (fun c => negb (is_session_call c))) as F.
  each_script H;
    match goal with
    | |- context [fst (?b o initial)] => unfold b
    end;
    apply session_then_rest; intro p; walk F fail.
Qed.

(** X7. Every run of every script builds at most one session, at its very
    start and in a fixed order: the driver is started, Chromium is launched
    headless with the four flags, a context is created, its default timeout
    is set to 5000 ms and one page is opened.  The trace of the run is a
    prefix of these five calls followed by calls that are none of these
    kinds: no second browser, context or page is ever opened and the
    default timeout is never changed. *)
Theorem one_session_per_run (o : oracle) (name : string) (body : M unit) :
  In (name, body) scripts ->
  exists n l,
    trace (fst (run body o)) = firstn n session_calls ++ l /\
    forallb (fun c => negb (is_session_call c)) l = true.
Proof.
  intros Hin.
  destruct (body_session o Hin) as [n [l [E Hl]]].
  pose proof (run_trace o body) as R. cbv zeta in R.
  exists n, (l ++ attempted o (trace (fst (body o initial)))
                    (expected_teardown (fst (body o initial)))).
  split.
  - rewrite R, E. now rewrite app_assoc.
  - rewrite forallb_app, Hl. simpl.
    generalize (trace (fst (body o initial))).
    unfold expected_teardown.
    destruct (context (fst (body o initial))), (browser (fst (body o initial))),
      (pw (fst (body o initial))); intros tr; simpl;
      repeat match goal with
             | |- context [raises o ?x ?c] => destruct (raises o x c); simpl
             end; reflexivity.
Qed.

Lemma one_session_per_run_witness :
  exists n l,
    trace (fst (run TC002_body no_browser)) = firstn n session_calls ++ l /\
    forallb (fun c => negb (is_session_call c)) l = true.
Proof.
  apply (@one_session_per_run no_browser
           "TC002_Recruiter_Login_and_Access_Control" TC002_body).
  simpl; auto.
Defined.

(** ** Scripts that cannot pass *)

Lemma nr_bind_left {A B} o (m : M A) (k : A -> M B) :
  never_returns o m -> never_returns o (bind m k).
Proof.
  intros H st b. specialize (H st). unfold bind.
  destruct (m o st) as [st1 [a|e]]; simpl in *; [now elim (H a) | discriminate].
Qed.

Lemma nr_bind_right {A B} o (m : M A) (k : A -> M B) :
  (forall a, never_returns o (k a)) -> never_returns o (bind m k).
Proof.
  intros H st b. unfold bind.
  destruct (m o st) as [st1 [a|e]]; simpl; [apply H | discriminate].
Qed.

Lemma nr_assert_false o msg : never_returns o (assert_ false msg).
Proof. intros st a. discriminate. Qed.

Lemma nr_scroll o p : never_returns o (scroll_step p).
Proof. intros st a. discriminate. Qed.

Ltac never_step :=
  first
    [ apply nr_bind_left; first [apply nr_assert_false | apply nr_scroll]
    | apply nr_bind_right; intro
    | progress unfold TC011_steps, TC015_steps ].

Lemma unpassable_never_return o name body :
  In (name, body) scripts -> ~ In name passable -> never_returns o body.
Proof.
  intros H Hn. unfold passable, TC013R_name in Hn.
  each_script H; try (elim Hn; simpl; tauto);
    match goal with
    | |- never_returns _ ?b => unfold b
    end; repeat never_step.
Qed.

Lemma runs_bind_dead {A B} o Q (m : M A) (k : A -> M B) :
  runs o Q m -> never_returns o m -> runs o Q (bind m k).
Proof.
  intros Hm Hn st. destruct (Hm st) as [l [E Hl]]. specialize (Hn st).
  exists l. unfold bind.
  destruct (m o st) as [st1 [a|e]]; simpl in *; [now elim (Hn a) | now split].
Qed.

Ltac dead_leaf F :=
  match goal with
  | |- runs _ _ (bind (assert_ false _) _) =>
      apply runs_bind_dead;
      [apply runs_assert; exact (fam_seq F) | apply nr_assert_false]
  | |- runs _ _ (bind (scroll_step _) _) =>
      apply runs_bind_dead; [|apply nr_scroll]
  end.

Lemma unpassable_never_sleep o name body :
  In (name, body) scripts -> ~ In name passable ->
  runs o (each (fun _ c => negb (is_sleep c))) (run_test body).
Proof.
  intros H Hn. unfold passable, TC013R_name in Hn.
  pose proof (each_family o (fun c => negb (is_sleep c))) as F.
  unfold run_test. apply runs_try_finally_each.
  - each_script H; try (elim Hn; simpl; tauto);
      walk F ltac:(idtac; dead_leaf F).
  - walk F fail.
Qed.

(** X8. Three of the eight scripts can pass and five cannot.  TC002, TC007
    and TC013 (role dashboards) return normally on a browser where every
    call succeeds and everything asked for is there.  TC001, TC011, TC013
    (system build), TC015 and TC016 end with an exception on every browser
    whatsoever, two of them because of their final [assert False], and
    none of the five ever reaches its final [asyncio.sleep(5)]. *)
Theorem which_scripts_can_pass (name : string) (body : M unit) :
  In (name, body) scripts ->
  ((exists o, snd (run body o) = Ok tt) <-> In name passable) /\
  (~ In name passable ->
   forall o, existsb is_sleep (trace (fst (run body o))) = false).
Proof.
  intros Hin.
  assert (D : In name passable \/ ~ In name passable).
  { unfold passable, TC013R_name. pose proof Hin as H.
    each_script H; simpl;
      first [ left; tauto
            | right; intros [E|[E|[E|[]]]]; discriminate ]. }
  split; [split|].
  - intros [o Ho]. destruct D as [D|D]; [exact D|].
    exfalso. rewrite run_outcome in Ho.
    destruct (snd (teardown o (fst (body o initial)))) as [[]|e2]; [|discriminate].
    exact (@unpassable_never_return o _ _ Hin D initial tt Ho).
  - intros Hp. exists (calm true 1). unfold passable, TC013R_name in Hp.
    pose proof Hin as H.
    each_script H; try reflexivity;
      exfalso; simpl in Hp; destruct Hp as [E|[E|[E|[]]]]; discriminate.
  - intros Hn o.
    destruct (unpassable_never_sleep o Hin Hn initial) as [l [E Hl]].
    unfold run. rewrite E. simpl. unfold each in Hl.
    rewrite allh_forallb in Hl.
    apply not_true_is_false. intros Hs.
    apply existsb_exists in Hs. destruct Hs as [c [Hc Hc']].
    rewrite forallb_forall in Hl. specialize (Hl c Hc).
    rewrite Hc' in Hl. discriminate.
Qed.

Lemma which_scripts_can_pass_witness :
  (exists o, snd (run TC007_body o) = Ok tt) /\
  existsb is_sleep (trace (fst (run TC015_body (calm true 1)))) = false.
Proof.
  split.
  - apply (proj1 (@which_scripts_can_pass
                    "TC007_Role_Based_Dashboards_Access_and_Data_Verification"
                    TC007_body ltac:(simpl; auto))).
    simpl; auto.
  - apply (proj2 (@which_scripts_can_pass
                    "TC015_Interview_Management_with_Scheduling_and_Reminder_Notifications"
                    TC015_body ltac:(simpl; auto 10))).
    unfold passable, TC013R_name. intros [E|[E|[E|[]]]]; discriminate.
Defined.

(** ** The placeholder assertion *)

Section Cooperative.
Variable o : oracle.
Hypothesis Hc : cooperative o.

Lemma succeeds_ret {A} (a : A) : succeeds o (ret a).
Proof. intros st. now exists st, a. Qed.

Lemma succeeds_bind {A B} (m : M A) (k : A -> M B) :
  succeeds o m -> (forall a, succeeds o (k a)) -> succeeds o (bind m k).
Proof.
  intros Hm Hk st. destruct (Hm st) as [s1 [a E]].
  unfold bind. rewrite E. apply Hk.
Qed.

Lemma succeeds_perform c : succeeds o (perform c).
Proof.
  intros st. unfold perform. rewrite (proj1 Hc). now exists (log c st), tt.
Qed.

Lemma succeeds_query {A} c (f : oracle -> list call -> A) : succeeds o (query c f).
Proof.
  intros st. unfold query. rewrite (proj1 Hc).
  now exists (log c st), (f o (trace st)).
Qed.

Lemma succeeds_read {A} c (f : oracle -> list call -> A) : succeeds o (read c f).
Proof. intros st. now exists (log c st), (f o (trace st)). Qed.

Lemma succeeds_try_except m : succeeds o m -> succeeds o (try_except_Error m).
Proof.
  intros Hm st. destruct (Hm st) as [s1 [[] E]].
  unfold try_except_Error. rewrite E. now exists s1, tt.
Qed.

Lemma succeeds_for_each {A} (xs : list A) body :
  (forall x, succeeds o (body x)) -> succeeds o (for_each xs body).
Proof.
  intros H. induction xs as [|x xs IH]; simpl.
  - apply succeeds_ret.
  - apply succeeds_bind; [apply H | intros _; exact IH].
Qed.

Lemma succeeds_set (f : option handle -> M unit) h :
  (f = set_pw \/ f = set_browser \/ f = set_context) -> succeeds o (f h).
Proof.
  intros [->|[->| ->]] st; eexists; exists tt; reflexivity.
Qed.

Lemma succeeds_resolve path : succeeds o (resolve path).
Proof.
  intros st. unfold resolve, context_pages, read, last_item, locate, bind, ret.
  pose proof (proj2 Hc (trace st)) as Hp.
  destruct (rev (pages_of o (trace st))) as [|fr rest] eqn:E.
  - apply (f_equal (@rev page)) in E. rewrite rev_involutive in E.
    now elim Hp.
  - eexists. eexists. reflexivity.
Qed.

Lemma ends_bind {A B} e (m : M A) (k : A -> M B) :
  succeeds o m -> (forall a, ends_with o e (k a)) -> ends_with o e (bind m k).
Proof.
  intros Hm Hk st. destruct (Hm st) as [s1 [a E]].
  unfold bind. rewrite E. apply Hk.
Qed.

Lemma ends_assert_false {B} msg (k : unit -> M B) :
  ends_with o (AssertionError msg) (bind (assert_ false msg) k).
Proof. intros st. reflexivity. Qed.

End Cooperative.

Ltac succeed_step Hc :=
  first
    [ apply (succeeds_resolve Hc)
    | apply succeeds_bind; [|intro]
    | apply succeeds_ret
    | apply (succeeds_perform Hc)
    | apply (succeeds_query Hc)
    | apply succeeds_read
    | apply succeeds_try_except
    | apply succeeds_for_each; intro
    | apply succeeds_set; tauto
    | progress unfold
        setup, open_start_page, settle_frames, start_playwright, launch_browser,
        new_context, set_default_timeout, new_page, goto, wait_for_load_state,
        page_frames, frame_wait_for_load_state, wait_for_timeout, click, fill,
        click_step, fill_step ].

Ltac ends_step Hc :=
  first
    [ apply ends_assert_false
    | apply ends_bind; [repeat succeed_step Hc | intro]
    | progress unfold TC011_steps, TC015_steps ].



(** ** Reading a coverage percentage *)

Lemma search_digits ds rest run :
  all_digits ds = true -> ds <> EmptyString ->
  search_percent (ds ++ rest) run =
    search_percent rest (Some (horner (acc_of run) ds)).
Proof.
  revert run. induction ds as [|c ds IH]; intros run Hd Hne; [now elim Hne|].
  simpl in Hd. apply andb_prop in Hd. destruct Hd as [Hc Hd].
  simpl. rewrite Hc. fold (acc_of run). fold (shift_digit (acc_of run) c).
  destruct ds as [|c' ds'].
  - reflexivity.
  - rewrite IH; [reflexivity | exact Hd | discriminate].
Qed.

Lemma search_skip pre rest run :
  no_percent pre = true -> ends_in_digit pre = false ->
  (pre = EmptyString -> run = None) ->
  search_percent (pre ++ rest) run = search_percent rest None.
Proof.
  revert run. induction pre as [|c pre IH]; intros run Hp He Hr.
  - simpl. now rewrite Hr.
  - simpl in Hp. apply andb_prop in Hp. destruct Hp as [Hc Hp].
    apply negb_true_iff in Hc. simpl.
    destruct (is_digit c) eqn:D.
    + destruct pre as [|c' pre'].
      * simpl in He. congruence.
      * apply IH; [exact Hp | exact He | discriminate].
    + assert (E : search_percent (pre ++ rest) None = search_percent rest None).
      { apply IH; [exact Hp | | reflexivity].
        destruct pre; [reflexivity | exact He]. }
      destruct run; [rewrite Hc|]; exact E.
Qed.

Lemma horner_pos d acc :
  horner (Z.pos acc) (NilEmpty.string_of_uint d) = Z.pos (Pos.of_uint_acc d acc).
Proof.
  revert acc. induction d as [|d IH|d IH|d IH|d IH|d IH|d IH|d IH|d IH|d IH|d IH]; intros acc;
    cbn [NilEmpty.string_of_uint horner Pos.of_uint_acc]; try reflexivity;
    rewrite <- IH; f_equal; unfold shift_digit;
    match goal with
    | |- context [digit_value ?c] =>
        let v := eval vm_compute in (digit_value c) in
        change (digit_value c) with v
    end; lia.
Qed.

Lemma horner_uint d : horner 0 (NilEmpty.string_of_uint d) = Z.of_uint d.
Proof.
  unfold Z.of_uint.
  induction d as [|d IH|d IH|d IH|d IH|d IH|d IH|d IH|d IH|d IH|d IH];
    cbn [NilEmpty.string_of_uint horner Pos.of_uint Z.of_N]; try reflexivity;
    try (rewrite <- horner_pos; reflexivity).
  exact IH.
Qed.

Lemma uint_digits d : all_digits (NilEmpty.string_of_uint d) = true.
Proof. induction d; simpl; auto. Qed.

Lemma uint_not_empty d :
  d <> Decimal.Nil -> NilEmpty.string_of_uint d <> EmptyString.
Proof. destruct d; simpl; intros H; [now elim H | discriminate ..]. Qed.



Lemma digit_value_nonneg c : is_digit c = true -> 0 <= digit_value c.
Proof.
  unfold is_digit, digit_value. cbv zeta. intros H. apply andb_prop in H.
  destruct H as [H _]. apply Nat.leb_le in H. lia.
Qed.

Lemma search_nonneg s run v :
  0 <= acc_of run -> search_percent s run = Some v -> 0 <= v.
Proof.
  revert run. induction s as [|c s IH]; intros run Hr; cbn [search_percent];
    [discriminate|].
  destruct (is_digit c) eqn:D.
  - apply IH. cbn [acc_of]. pose proof (digit_value_nonneg c D).
    fold (acc_of run). lia.
  - destruct run as [w|].
    + destruct (Ascii.eqb c "%"); [intros E; injection E as <-; exact Hr|].
      apply IH. cbn [acc_of]. lia.
    + apply IH. cbn [acc_of]. lia.
Qed.

Lemma search_no_percent s run :
  no_percent s = true -> search_percent s run = None.
Proof.
  revert run. induction s as [|c s IH]; intros run Hp; simpl; [reflexivity|].
  simpl in Hp. apply andb_prop in Hp. destruct Hp as [Hc Hp].
  apply negb_true_iff in Hc.
  destruct (is_digit c); [now apply IH|].
  destruct run; [rewrite Hc|]; now apply IH.
Qed.


(** ** The first assertion of TC002 *)

Lemma contains_unfold needle hay :
  contains needle hay =
    if String.prefix needle hay then true
    else match hay with
         | EmptyString => false
         | String _ rest => contains needle rest
         end.
Proof. destruct hay; reflexivity. Qed.

Lemma contains_substring needle hay :
  contains needle hay = true <->
  exists pre post, hay = (pre ++ needle ++ post)%string.
Proof.
  split.
  - induction hay as [|c hay IH]; rewrite contains_unfold;
      destruct (String.prefix needle _) eqn:P.
    + intros _. apply prefix_app in P. destruct P as [post E].
      now exists EmptyString, post.
    + discriminate.
    + intros _. apply prefix_app in P. destruct P as [post E].
      now exists EmptyString, post.
    + intros H. destruct (IH H) as [pre [post E]].
      exists (String c pre), post. simpl. now rewrite E.
  - intros [pre [post E]]. subst hay.
    induction pre as [|c pre IH]; rewrite contains_unfold.
    + assert (P : String.prefix needle (needle ++ post) = true)
        by (apply prefix_app; now exists post).
      simpl. now rewrite P.
    + destruct (String.prefix needle _); [reflexivity | exact IH].
Qed.

(** X12. The first assertion of TC002 reads the address of the frame.  If
    ["/recruiter/dashboard"] occurs anywhere in it, the assertion holds
    and the page is not asked whether the heading is visible; otherwise the
    assertion is exactly the answer (or the failure) of that visibility
    query. *)
Theorem dashboard_check_short_circuits (fr : page) (o : oracle) (st : state) :
  let u := url_of o (trace st) fr in
  ((exists pre post, u = (pre ++ "/recruiter/dashboard" ++ post)%string) ->
   dashboard_loaded fr o st = (log (GetUrl fr) st, Ok true)) /\
  (~ (exists pre post, u = (pre ++ "/recruiter/dashboard" ++ post)%string) ->
   dashboard_loaded fr o st =
     is_visible (Loc fr "text=Recruiter Dashboard") o (log (GetUrl fr) st)).
Proof.
  cbv zeta. unfold dashboard_loaded, frame_url, read, bind.
  split; intros H.
  - apply contains_substring in H. now rewrite H.
  - destruct (contains "/recruiter/dashboard" (url_of o (trace st) fr)) eqn:C;
      [|reflexivity].
    elim H. now apply contains_substring.
Qed.

Lemma dashboard_check_short_circuits_witness :
  dashboard_loaded 1%nat on_dashboard initial = (log (GetUrl 1%nat) initial, Ok true).
Proof.
  apply (proj1 (dashboard_check_short_circuits 1%nat on_dashboard initial)).
  exists "http://localhost:3000", "?tab=jobs". reflexivity.
Defined.

(** ** Time limits *)

Lemma run_fixed_limits o name body :
  In (name, body) scripts -> runs o (each (fun _ => fixed_limit)) (run_test body).
Proof.
  intros H. pose proof (each_family o fixed_limit) as F.
  unfold run_test. apply runs_try_finally_each.
  - each_script H; walk F fail.
  - walk F fail.
Qed.

(** X13. The time limits of every run of every script are the fixed ones:
    each navigation is given 10000 ms, each load wait and each settle delay
    3000 ms, the default timeout is 5000 ms, a click that names a timeout
    and a wait for visibility get 5000 ms, and the final sleep lasts 5 s. *)
Theorem time_limits_are_fixed
    (o : oracle) (name : string) (body : M unit) (c : call) :
  In (name, body) scripts ->
  In c (trace (fst (run body o))) ->
  fixed_limit c = true.
Proof.
  intros Hin Hc.
  destruct (run_fixed_limits o Hin initial) as [l [E Hl]]. unfold run in Hc.
  rewrite E in Hc. simpl in Hc. unfold each in Hl.
  rewrite allh_forallb, forallb_forall in Hl. now apply Hl.
Qed.

Lemma time_limits_are_fixed_witness :
  fixed_limit (WaitForVisible (dashboard 1%nat "candidate-dashboard") 5000) = true.
Proof.
  apply (@time_limits_are_fixed (calm true 1) TC013R_name TC013R_body).
  - simpl; auto 10.
  - apply (nth_error_In _ 45). reflexivity.
Defined.
